(** * HaloRide landing page: lead form, configuration loader, lead service

    A shallow embedding of the logic of the repository:
    - [client/src/pages/home.tsx]: the zod [formSchema], the react-hook-form
      submission path ([form.handleSubmit(onSubmit)]) and [onSubmit];
    - [client/src/lib/supabase.ts]: [initSupabase] and [getSupabase];
    - [client/src/App.tsx]: the start-up effect and the three screens;
    - [client/src/lib/leadService.ts]: [leadService.submitLead].

    JavaScript strings are sequences of UTF-16 code units, effects are
    threaded through an exception-and-state monad, and the outcome of every
    network call is read from the world the code runs in. *)

From Stdlib Require Import List Bool Arith NArith ZArith String Ascii Lia.
Import ListNotations.

Set Implicit Arguments.
Set Warnings "-register-all".
Local Open Scope string_scope.
Local Open Scope list_scope.

(* ------------------------------------------------------------------ *)
(** ** JavaScript strings and values *)

(** A JavaScript string: its UTF-16 code units. [length] is [.length]. *)
Definition jsstring := list N.

(** The code units of an ASCII literal. *)
Fixpoint js (s : string) : jsstring :=
  match s with
  | EmptyString => []
  | String a rest => N_of_ascii a :: js rest
  end.

(** A value read from JSON text. Objects keep their members in source
    order; numbers are kept as integers, which is all truthiness needs. *)
Inductive Json :=
| JNull
| JBool (b : bool)
| JNum (n : Z)
| JStr (s : jsstring)
| JArr (items : list Json)
| JObj (members : list (jsstring * Json)).

(** A JavaScript value: [None] is [undefined]. *)
Definition JsValue := option Json.

Definition undefined : JsValue := None.
Definition str (s : string) : JsValue := Some (JStr (js s)).

(** ToBoolean. *)
Definition truthy (v : JsValue) : bool :=
  match v with
  | None => false
  | Some JNull => false
  | Some (JBool b) => b
  | Some (JNum n) => negb (n =? 0)%Z
  | Some (JStr s) => match s with [] => false | _ :: _ => true end
  | Some (JArr _) => true
  | Some (JObj _) => true
  end.

Fixpoint jsstring_eqb (a b : jsstring) : bool :=
  match a, b with
  | [], [] => true
  | x :: a', y :: b' => (x =? y)%N && jsstring_eqb a' b'
  | _, _ => false
  end.

(** ** Character classes *)

Definition inRange (lo hi c : N) : bool := ((lo <=? c) && (c <=? hi))%N.

(** [\d] (no [u] flag): the ten ASCII digits. *)
Definition isDigit (c : N) : bool := inRange 48 57 c.

(** [a-zA-Z]. *)
Definition isAsciiLetter (c : N) : bool := inRange 97 122 c || inRange 65 90 c.

(** U+0020 alone. *)
Definition isSpace (c : N) : bool := (c =? 32)%N.

(** [\s], which is also what [String.prototype.trim] strips: WhiteSpace and
    LineTerminator of ECMAScript. *)
Definition isWhiteSpace (c : N) : bool :=
  (inRange 9 13 c              (* \t \n \v \f \r *)
   || (c =? 32)
   || (c =? 160)               (* U+00A0 *)
   || (c =? 5760)              (* U+1680 *)
   || inRange 8192 8202 c      (* U+2000 .. U+200A *)
   || (c =? 8232) || (c =? 8233)   (* U+2028, U+2029 *)
   || (c =? 8239)              (* U+202F *)
   || (c =? 8287)              (* U+205F *)
   || (c =? 12288)             (* U+3000 *)
   || (c =? 65279))%N.         (* U+FEFF *)

(** [[a-zA-Z\s]] *)
Definition isLetterOrWhiteSpace (c : N) : bool := isAsciiLetter c || isWhiteSpace c.

(* ------------------------------------------------------------------ *)
(** ** Regular expressions *)

Module Regex.

(** The fragment of RegExp syntax the schema uses, over code units. *)
Inductive regex :=
| Void
| Eps
| Class (p : N -> bool)
| Cat (r1 r2 : regex)
| Alt (r1 r2 : regex)
| Star (r : regex).

(** [r+] *)
Definition Plus (r : regex) : regex := Cat r (Star r).

(** [r{n}] *)
Fixpoint Repeat (n : nat) (r : regex) : regex :=
  match n with
  | O => Eps
  | S k => Cat r (Repeat k r)
  end.

Fixpoint nullable (r : regex) : bool :=
  match r with
  | Void => false
  | Eps => true
  | Class _ => false
  | Cat r1 r2 => nullable r1 && nullable r2
  | Alt r1 r2 => nullable r1 || nullable r2
  | Star _ => true
  end.

Fixpoint deriv (c : N) (r : regex) : regex :=
  match r with
  | Void => Void
  | Eps => Void
  | Class p => if p c then Eps else Void
  | Cat r1 r2 =>
      if nullable r1
      then Alt (Cat (deriv c r1) r2) (deriv c r2)
      else Cat (deriv c r1) r2
  | Alt r1 r2 => Alt (deriv c r1) (deriv c r2)
  | Star r1 => Cat (deriv c r1) (Star r1)
  end.

(** [/^r$/.test(s)]: without the [m] flag [^] and [$] only match at the
    two ends of the input, so the whole string has to match [r]. *)
Fixpoint test (r : regex) (s : jsstring) : bool :=
  match s with
  | [] => nullable r
  | c :: rest => test (deriv c r) rest
  end.

End Regex.
Import Regex.

(** [/^\d{10}$/] *)
Definition mobileRegex : regex := Repeat 10 (Class isDigit).
(** [/^[a-zA-Z\s]+$/] *)
Definition nameRegex : regex := Plus (Class isLetterOrWhiteSpace).
(** [/^[a-zA-Z\s]*$/] *)
Definition schoolRegex : regex := Star (Class isLetterOrWhiteSpace).

(* ------------------------------------------------------------------ *)
(** ** Effects: exceptions over a mutable world *)

(** A thrown [Error]: its [name] and its [message]. *)
Record JsError := mkError { errorName : string; errorMessage : string }.

(** How the evaluation of a statement or an awaited promise ends. *)
Inductive Completion (A : Type) :=
| Return (a : A)
| Throw (e : JsError).
Arguments Return {A} a.
Arguments Throw {A} e.

(** A computation over the world [W]. *)
Definition M (W A : Type) : Type := W -> Completion A * W.

Definition ret {W A} (a : A) : M W A := fun w => (Return a, w).

Definition bind {W A B} (c : M W A) (k : A -> M W B) : M W B :=
  fun w =>
    match c w with
    | (Return a, w') => k a w'
    | (Throw e, w') => (Throw e, w')
    end.

Definition throw {W A} (e : JsError) : M W A := fun w => (Throw e, w).

Definition gets {W A} (f : W -> A) : M W A := fun w => (Return (f w), w).

Definition modify {W} (f : W -> W) : M W unit := fun w => (Return tt, f w).

(** [try { body } catch (error) { handler }] *)
Definition tryCatch {W A} (body : M W A) (handler : JsError -> M W A) : M W A :=
  fun w =>
    match body w with
    | (Return a, w') => (Return a, w')
    | (Throw e, w') => handler e w'
    end.

(** [try { body } finally { final }]: [final] runs on both exits and the
    completion of [body] stands unless [final] itself throws. *)
Definition tryFinally {W A} (body : M W A) (final : M W unit) : M W A :=
  fun w =>
    match body w with
    | (r, w') =>
        match final w' with
        | (Return _, w'') => (r, w'')
        | (Throw e, w'') => (Throw e, w'')
        end
    end.

(** Running a computation of a part [V] of the world inside [W]. *)
Definition lift {W V A} (get : W -> V) (set : V -> W -> W) (c : M V A) : M W A :=
  fun w => match c (get w) with (r, v') => (r, set v' w) end.

Declare Scope js_scope.
Delimit Scope js_scope with js.
Notation "x <- c ;; k" := (bind c (fun x => k))
  (at level 61, c at next level, right associativity) : js_scope.
Notation "c ;; k" := (bind c (fun _ => k))
  (at level 61, right associativity) : js_scope.
Local Open Scope js_scope.

(** [if (cond) { throw e }] *)
Definition throwIf {W} (cond : bool) (e : JsError) : M W unit :=
  if cond then throw e else ret tt.

(* ------------------------------------------------------------------ *)
(** ** zod: string schemas *)

Module Zod.

(** The checks chained on [z.string()]. *)
Inductive StringCheck :=
| Min (n : nat) (message : string)
| Matches (r : regex) (message : string)
| IsEmail (message : string).

Inductive Schema :=
| ZString (checks : list StringCheck)
| ZOptional (inner : Schema).

(** zod's name of the type of a value that is not a string. *)
Definition parsedType (j : Json) : string :=
  match j with
  | JNull => "null"
  | JBool _ => "boolean"
  | JNum _ => "number"
  | JStr _ => "string"
  | JArr _ => "array"
  | JObj _ => "object"
  end.

(** The value is valid: it raised no issue. *)
Definition noIssue (issues : list string) : bool :=
  match issues with [] => true | _ :: _ => false end.

Section Parse.

(** The pattern behind [.email()]: zod's own, which the repository does
    not fix; the form is verified for every such pattern. *)
Variable emailRegex : jsstring -> bool.

Definition checkPasses (c : StringCheck) (s : jsstring) : bool :=
  match c with
  | Min n _ => Nat.leb n (List.length s)
  | Matches r _ => test r s
  | IsEmail _ => emailRegex s
  end.

Definition checkMessage (c : StringCheck) : string :=
  match c with
  | Min _ m => m
  | Matches _ m => m
  | IsEmail m => m
  end.

(** Every check runs; each failing one adds its issue. *)
Fixpoint runChecks (checks : list StringCheck) (s : jsstring) : list string :=
  match checks with
  | [] => []
  | c :: rest =>
      (if checkPasses c s then [] else [checkMessage c]) ++ runChecks rest s
  end.

(** The messages of the issues a value raises; none when it is valid. *)
Fixpoint parse (schema : Schema) (v : JsValue) : list string :=
  match schema with
  | ZString checks =>
      match v with
      | None => ["Required"]
      | Some (JStr s) => runChecks checks s
      | Some j => [String.append "Expected string, received " (parsedType j)]
      end
  | ZOptional inner =>
      match v with
      | None => []
      | Some _ => parse inner v
      end
  end.

End Parse.

End Zod.

(* ------------------------------------------------------------------ *)
(** ** pages/home.tsx: the lead form *)

Module HomePage.

(** The keys of the form. *)
Inductive Field :=
| ParentName | ChildGrade | SchoolName | City | MobileNumber | Email.

Definition Field_eqb (a b : Field) : bool :=
  match a, b with
  | ParentName, ParentName | ChildGrade, ChildGrade
  | SchoolName, SchoolName | City, City
  | MobileNumber, MobileNumber | Email, Email => true
  | _, _ => false
  end.

(** What the form holds, and what is posted: one value per key. *)
Record FormValues := {
  parentName : JsValue;
  childGrade : JsValue;
  schoolName : JsValue;
  city : JsValue;
  mobileNumber : JsValue;
  email : JsValue
}.

Definition field (f : Field) (v : FormValues) : JsValue :=
  match f with
  | ParentName => parentName v
  | ChildGrade => childGrade v
  | SchoolName => schoolName v
  | City => city v
  | MobileNumber => mobileNumber v
  | Email => email v
  end.

Import Zod.

(** [const formSchema = z.object({ ... })], key by key in source order. *)
Definition formSchema : list (Field * Schema) :=
  [ (ParentName,
      ZString [Min 2 "Name must be at least 2 characters";
               Matches nameRegex "Only alphabets allowed"]);
    (ChildGrade,
      ZString [Min 1 "Please select a grade"]);
    (SchoolName,
      ZOptional (ZString [Matches schoolRegex "Only alphabets allowed"]));
    (City,
      ZString [Min 2 "City must be at least 2 characters";
               Matches nameRegex "Only alphabets allowed"]);
    (MobileNumber,
      ZString [Matches mobileRegex "Must be exactly 10 digits"]);
    (Email,
      ZOptional (ZString [IsEmail "Please enter a valid email address"])) ].

(** [const gradeOptions = [...]] *)
Definition gradeOptions : list jsstring :=
  map js ["Class 1"; "Class 2"; "Class 3"; "Class 4"; "Class 5"; "Class 6";
          "Class 7"; "Class 8"; "Class 9"; "Class 10"; "Class 11"; "Class 12"].

(** The [value]s of the [SelectItem]s of the grade drop-down. *)
Definition gradeSelectItems : list jsstring :=
  map js ["Pre-primary"; "Lower primary"; "Higher primary"; "Secondary";
          "Higher secondary"].

(** [useForm({ defaultValues: { ... } })] *)
Definition defaultValues : FormValues :=
  {| parentName := str "";
     childGrade := str "";
     schoolName := str "";
     city := str "";
     mobileNumber := str "";
     email := str "" |}.

Record Toast := { title : string; description : string; variant : string }.

(** One call of [apiRequest]. *)
Record ApiCall := { method : string; url : string; body : FormValues }.

(** The state [Home] works on: the react-hook-form store, the
    [isSubmitting] state variable, the toasts shown, the requests issued
    so far, and the network: whether the k-th request resolves. *)
Record World := {
  formValues : FormValues;
  formErrors : list (Field * string);
  isSubmitting : bool;
  toasts : list Toast;
  requests : list ApiCall;
  apiResolves : nat -> bool
}.

Definition setFormValues (v : FormValues) (w : World) : World :=
  {| formValues := v; formErrors := formErrors w;
     isSubmitting := isSubmitting w; toasts := toasts w;
     requests := requests w; apiResolves := apiResolves w |}.

Definition setFormErrors (e : list (Field * string)) (w : World) : World :=
  {| formValues := formValues w; formErrors := e;
     isSubmitting := isSubmitting w; toasts := toasts w;
     requests := requests w; apiResolves := apiResolves w |}.

Definition setIsSubmitting (b : bool) : M World unit :=
  modify (fun w =>
    {| formValues := formValues w; formErrors := formErrors w;
       isSubmitting := b; toasts := toasts w;
       requests := requests w; apiResolves := apiResolves w |}).

Definition toast (t : Toast) : M World unit :=
  modify (fun w =>
    {| formValues := formValues w; formErrors := formErrors w;
       isSubmitting := isSubmitting w; toasts := toasts w ++ [t];
       requests := requests w; apiResolves := apiResolves w |}).

(** [apiRequest(method, url, data)] of lib/queryClient, the network
    primitive of the page: the call is one request; it resolves or
    rejects as the network decides. *)
Definition apiRequest (method url : string) (data : FormValues) : M World unit :=
  fun w =>
    let k := List.length (requests w) in
    let w' :=
      {| formValues := formValues w; formErrors := formErrors w;
         isSubmitting := isSubmitting w; toasts := toasts w;
         requests := requests w ++ [ {| method := method; url := url; body := data |} ];
         apiResolves := apiResolves w |} in
    if apiResolves w k
    then (Return tt, w')
    else (Throw (mkError "Error" "request failed"), w').

(** [form.reset()]: back to [defaultValues], errors cleared. *)
Definition form_reset : M World unit :=
  modify (fun w => setFormErrors [] (setFormValues defaultValues w)).

Definition successToast : Toast :=
  {| title := "Form submitted successfully!";
     description := "Thank you for your interest in HaloRide. We'll get back to you soon.";
     variant := "default" |}.

Definition errorToast : Toast :=
  {| title := "Error submitting form";
     description := "Please try again later.";
     variant := "destructive" |}.

(** [const onSubmit = async (data) => { try ... catch ... finally ... }].
    The earlier revision of the page first takes a [consent] key out of
    [data]; the form has none, and what is posted is the same. *)
Definition onSubmit (data : FormValues) : M World unit :=
  tryFinally
    (tryCatch
       (setIsSubmitting true ;;
        apiRequest "POST" "/api/leads" data ;;
        toast successToast ;;
        form_reset)
       (fun _error => toast errorToast))
    (setIsSubmitting false).

Section Form.

Variable emailRegex : jsstring -> bool.

(** [formSchema.safeParse(values)]: the issues, in key order. *)
Definition safeParse (schema : list (Field * Schema)) (values : FormValues)
  : list (Field * string) :=
  flat_map
    (fun entry =>
       map (pair (fst entry)) (parse emailRegex (snd entry) (field (fst entry) values)))
    schema.

Definition hasError (f : Field) (errors : list (Field * string)) : bool :=
  existsb (fun e => Field_eqb (fst e) f) errors.

(** The resolver keeps, for each field, the first issue raised on it. *)
Fixpoint toFieldErrors (issues acc : list (Field * string)) : list (Field * string) :=
  match issues with
  | [] => acc
  | i :: rest =>
      toFieldErrors rest (if hasError (fst i) acc then acc else acc ++ [i])
  end.

(** [zodResolver(formSchema)] *)
Definition zodResolver (values : FormValues) : list (Field * string) :=
  toFieldErrors (safeParse formSchema values) [].

(** [form.handleSubmit(onValid)]: the values are run through the
    resolver; [onValid] is called only when it reports no error. *)
Definition handleSubmit (onValid : FormValues -> M World unit) : M World unit :=
  values <- gets formValues ;;
  let errors := zodResolver values in
  modify (setFormErrors errors) ;;
  match errors with
  | [] => onValid values
  | _ :: _ => ret tt
  end.

(** [<form onSubmit={form.handleSubmit(onSubmit)}>]: a press of submit. *)
Definition submit : M World unit := handleSubmit onSubmit.

End Form.

End HomePage.

(* ------------------------------------------------------------------ *)
(** ** lib/supabase.ts: the configuration loader *)

Module Supabase.

(** What [fetch('/api/config')] comes back with. *)
Inductive FetchResult :=
| NetworkFailure
    (* the promise rejects: the endpoint cannot be reached *)
| Response (ok : bool) (body : option Json).
    (* [body = None]: the text is not JSON and [response.json()] rejects *)

(** [JSON.parse] keeps the last member of a name. *)
Fixpoint getMember (key : jsstring) (members : list (jsstring * Json)) : JsValue :=
  match members with
  | [] => undefined
  | (k, v) :: rest =>
      match getMember key rest with
      | Some later => Some later
      | None => if jsstring_eqb k key then Some v else undefined
      end
  end.

Section Loader.

(** The handle type of supabase-js and its constructor, which may
    refuse credentials by throwing. *)
Variable SupabaseClient : Type.
Variable createClient : JsValue -> JsValue -> JsError + SupabaseClient.

(** The module variables, the console, the number of configuration
    requests issued so far, and the endpoint: what the k-th request
    comes back with. *)
Record World := {
  supabaseUrl : JsValue;
  supabaseAnonKey : JsValue;
  supabaseClient : option SupabaseClient;
  console : list string;
  fetched : nat;
  configEndpoint : nat -> FetchResult
}.

(** [let supabaseUrl = ''; let supabaseAnonKey = ''; let supabaseClient = null;] *)
Definition start (endpoint : nat -> FetchResult) : World :=
  {| supabaseUrl := str ""; supabaseAnonKey := str "";
     supabaseClient := None; console := []; fetched := 0;
     configEndpoint := endpoint |}.

Definition setCredentials (u k : JsValue) : M World unit :=
  modify (fun w =>
    {| supabaseUrl := u; supabaseAnonKey := k;
       supabaseClient := supabaseClient w; console := console w;
       fetched := fetched w; configEndpoint := configEndpoint w |}).

Definition setClient (c : SupabaseClient) : M World unit :=
  modify (fun w =>
    {| supabaseUrl := supabaseUrl w; supabaseAnonKey := supabaseAnonKey w;
       supabaseClient := Some c; console := console w;
       fetched := fetched w; configEndpoint := configEndpoint w |}).

Definition consoleWrite (line : string) : M World unit :=
  modify (fun w =>
    {| supabaseUrl := supabaseUrl w; supabaseAnonKey := supabaseAnonKey w;
       supabaseClient := supabaseClient w; console := console w ++ [line];
       fetched := fetched w; configEndpoint := configEndpoint w |}).

(** [await fetch('/api/config')] *)
Definition fetchConfig : M World (bool * option Json) :=
  fun w =>
    let w' :=
      {| supabaseUrl := supabaseUrl w; supabaseAnonKey := supabaseAnonKey w;
         supabaseClient := supabaseClient w; console := console w;
         fetched := S (fetched w); configEndpoint := configEndpoint w |} in
    match configEndpoint w (fetched w) with
    | NetworkFailure => (Throw (mkError "TypeError" "Failed to fetch"), w')
    | Response ok body => (Return (ok, body), w')
    end.

(** [await response.json()] *)
Definition json (response : bool * option Json) : M World Json :=
  match snd response with
  | Some config => ret config
  | None => throw (mkError "SyntaxError" "Unexpected token in JSON")
  end.

(** [config.key] *)
Definition member (config : Json) (key : string) : M World JsValue :=
  match config with
  | JNull => throw (mkError "TypeError" "Cannot read properties of null")
  | JObj members => ret (getMember (js key) members)
  | JBool _ | JNum _ | JStr _ | JArr _ => ret undefined
  end.

Definition credentialsMissing : JsError :=
  mkError "Error" "Supabase credentials not found in server config".

(** [export async function initSupabase()] *)
Definition initSupabase : M World SupabaseClient :=
  tryCatch
    (response <- fetchConfig ;;
     throwIf (negb (fst response))
             (mkError "Error" "Failed to fetch Supabase configuration") ;;
     config <- json response ;;
     url <- member config "supabaseUrl" ;;
     throwIf (negb (truthy url)) credentialsMissing ;;
     key <- member config "supabaseAnonKey" ;;
     throwIf (negb (truthy key)) credentialsMissing ;;
     setCredentials url key ;;
     match createClient url key with
     | inl refused => throw refused
     | inr client =>
         setClient client ;;
         consoleWrite "Supabase client initialized successfully" ;;
         ret client
     end)
    (fun error =>
       consoleWrite "Error initializing Supabase client:" ;;
       throw error).

(** [export async function getSupabase()] *)
Definition getSupabase : M World SupabaseClient :=
  cached <- gets supabaseClient ;;
  match cached with
  | None => initSupabase
  | Some client => ret client
  end.

(** The loader's two states, read off the cache. *)
Inductive LoaderState :=
| Uninitialized
| Ready (handle : SupabaseClient).

Definition state (w : World) : LoaderState :=
  match supabaseClient w with
  | None => Uninitialized
  | Some client => Ready client
  end.

(** [n] calls of [getSupabase], each awaited before the next: the
    completions, oldest first, and the world they leave. *)
Fixpoint calls (n : nat) (w : World) : list (Completion SupabaseClient) * World :=
  match n with
  | O => ([], w)
  | S k =>
      match getSupabase w with
      | (r, w') =>
          match calls k w' with
          | (rs, w'') => (r :: rs, w'')
          end
      end
  end.

(** The number of initializations that went through: each one writes its
    line to the console. *)
Definition initializations (w : World) : nat :=
  count_occ string_dec (console w) "Supabase client initialized successfully".

(** What makes an initialization fail, read off the response. *)
Definition configUsable (r : FetchResult) : bool :=
  match r with
  | NetworkFailure => false
  | Response ok body =>
      ok &&
      match body with
      | Some (JObj members) =>
          let url := getMember (js "supabaseUrl") members in
          let key := getMember (js "supabaseAnonKey") members in
          truthy url && truthy key &&
          match createClient url key with inl _ => false | inr _ => true end
      | _ => false
      end
  end.

End Loader.

Arguments Uninitialized {SupabaseClient}.

End Supabase.

(* ------------------------------------------------------------------ *)
(** ** App.tsx: start-up *)

Module App.

Section Shell.

Variable SupabaseClient : Type.
Variable createClient : JsValue -> JsValue -> JsError + SupabaseClient.

(** The two [useState] cells of [App] and the loader module. *)
Record World := {
  isSupabaseInitialized : bool;
  initError : option string;
  lib : Supabase.World SupabaseClient
}.

(** [useState(false)], [useState<string | null>(null)] *)
Definition mount (l : Supabase.World SupabaseClient) : World :=
  {| isSupabaseInitialized := false; initError := None; lib := l |}.

Definition setLib (l : Supabase.World SupabaseClient) (w : World) : World :=
  {| isSupabaseInitialized := isSupabaseInitialized w;
     initError := initError w; lib := l |}.

Definition setSupabaseInitialized (b : bool) : M World unit :=
  modify (fun w =>
    {| isSupabaseInitialized := b; initError := initError w; lib := lib w |}).

Definition setInitError (message : string) : M World unit :=
  modify (fun w =>
    {| isSupabaseInitialized := isSupabaseInitialized w;
       initError := Some message; lib := lib w |}).

(** [const setupSupabase = async () => { try ... catch ... }], the body
    of the mount effect. *)
Definition setupSupabase : M World unit :=
  tryCatch
    (lift lib setLib (Supabase.initSupabase createClient) ;;
     setSupabaseInitialized true)
    (fun _error =>
       lift lib setLib (Supabase.consoleWrite "Failed to initialize Supabase:") ;;
       setInitError "Failed to initialize backend services").

(** What [App] returns. *)
Inductive Screen :=
| Loading
    (* the spinner, "Loading HaloRide..." *)
| ConnectionError (message : string)
    (* the full-page error with its "Try Again" button *)
| Routes.
    (* the providers and the router: the pages *)

Definition isSet (e : option string) : bool :=
  match e with
  | None | Some EmptyString => false
  | Some (String _ _) => true
  end.

Definition render (w : World) : Screen :=
  if negb (isSupabaseInitialized w) && negb (isSet (initError w)) then Loading
  else
    match initError w with
    | Some (String a rest) => ConnectionError (String a rest)
    | _ => Routes
    end.

End Shell.

End App.

(* ------------------------------------------------------------------ *)
(** ** lib/leadService.ts: the lead submission service *)

(** [Omit<Lead, 'id' | 'createdAt'>] *)
Module NewLead.
Record t := {
  parentName : jsstring;
  childGrade : jsstring;
  schoolName : option jsstring;     (* [schoolName?: string] *)
  city : jsstring;
  mobileNumber : jsstring;
  email : option jsstring           (* [email?: string] *)
}.
End NewLead.

(** [export interface Lead] *)
Module Lead.
Record t := {
  id : option jsstring;
  parentName : jsstring;
  childGrade : jsstring;
  schoolName : option jsstring;
  city : jsstring;
  mobileNumber : jsstring;
  email : option jsstring;
  createdAt : option jsstring
}.
End Lead.

(** The object handed to [insert]: the columns of [leads]. [None] is [null]. *)
Module Row.
Record t := {
  parent_name : jsstring;
  child_grade : jsstring;
  school_name : option jsstring;
  city : jsstring;
  mobile_number : jsstring;
  email : option jsstring;
  created_at : jsstring
}.
End Row.

(** The row [select().single()] hands back. *)
Module Stored.
Record t := {
  id : jsstring;
  parent_name : jsstring;
  child_grade : jsstring;
  school_name : option jsstring;
  city : jsstring;
  mobile_number : jsstring;
  email : option jsstring;
  created_at : jsstring
}.
End Stored.

Module LeadService.

(** [String.prototype.trim] *)
Fixpoint trimStart (s : jsstring) : jsstring :=
  match s with
  | [] => []
  | c :: rest => if isWhiteSpace c then trimStart rest else s
  end.

Definition trim (s : jsstring) : jsstring := rev (trimStart (rev (trimStart s))).

Definition isEmpty (s : jsstring) : bool :=
  match s with [] => true | _ :: _ => false end.

(** [value || null] on an optional string. *)
Definition orNull (value : option jsstring) : option jsstring :=
  match value with
  | None => None
  | Some s => if isEmpty s then None else Some s
  end.

(** [email && email.trim() !== '' ? email : null] *)
Definition emailOrNull (value : option jsstring) : option jsstring :=
  match value with
  | None => None
  | Some s =>
      if negb (isEmpty s) && negb (isEmpty (trim s)) then Some s else None
  end.

(** The object literal of [insert([{ ... }])]. *)
Definition toRow (leadData : NewLead.t) (now : jsstring) : Row.t :=
  {| Row.parent_name := NewLead.parentName leadData;
     Row.child_grade := NewLead.childGrade leadData;
     Row.school_name := orNull (NewLead.schoolName leadData);
     Row.city := NewLead.city leadData;
     Row.mobile_number := NewLead.mobileNumber leadData;
     Row.email := emailOrNull (NewLead.email leadData);
     Row.created_at := now |}.

(** From the columns back to the client's names. *)
Definition toLead (data : Stored.t) : Lead.t :=
  {| Lead.id := Some (Stored.id data);
     Lead.parentName := Stored.parent_name data;
     Lead.childGrade := Stored.child_grade data;
     Lead.schoolName := orNull (Stored.school_name data);
     Lead.city := Stored.city data;
     Lead.mobileNumber := Stored.mobile_number data;
     Lead.email := orNull (Stored.email data);
     Lead.createdAt := Some (Stored.created_at data) |}.

Record PostgrestError := {
  message : string;
  details : string;
  hint : option string;
  code : string
}.

(** [{ data, error }] *)
Record PostgrestResponse := {
  data : option Stored.t;
  error : option PostgrestError
}.

Section Service.

Variable SupabaseClient : Type.
Variable createClient : JsValue -> JsValue -> JsError + SupabaseClient.

(** The loader module, the clock, the rows handed to [insert] so far
    and the table: what it answers to the k-th insert. *)
Record World := {
  lib : Supabase.World SupabaseClient;
  now : jsstring;
  inserted : list Row.t;
  leads : nat -> Row.t -> PostgrestResponse
}.

Definition setLib (l : Supabase.World SupabaseClient) (w : World) : World :=
  {| lib := l; now := now w; inserted := inserted w; leads := leads w |}.

Definition consoleError (line : string) : M World unit :=
  lift lib setLib (Supabase.consoleWrite line).

(** [await supabase.from('leads').insert([row]).select().single()] *)
Definition insertLead (supabase : SupabaseClient) (row : Row.t)
  : M World PostgrestResponse :=
  fun w =>
    (Return (leads w (List.length (inserted w)) row),
     {| lib := lib w; now := now w;
        inserted := inserted w ++ [row]; leads := leads w |}).

Definition hintOrEmpty (h : option string) : string :=
  match h with
  | None => ""
  | Some text => text
  end.

(** [leadService.submitLead] *)
Definition submitLead (leadData : NewLead.t) : M World Lead.t :=
  tryCatch
    (supabase <- lift lib setLib (Supabase.getSupabase createClient) ;;
     stamp <- gets now ;;
     response <- insertLead supabase (toRow leadData stamp) ;;
     match error response with
     | Some err =>
         consoleError "Supabase error details:" ;;
         throw (mkError "Error"
                  (String.append "Supabase error: "
                     (String.append (message err)
                        (String.append ". " (hintOrEmpty (hint err))))))
     | None =>
         match data response with
         | None => throw (mkError "Error" "Failed to create lead: No data returned")
         | Some stored => ret (toLead stored)
         end
     end)
    (fun err =>
       consoleError "Error submitting lead:" ;;
       throw err).

End Service.

End LeadService.

(* ------------------------------------------------------------------ *)
(** ** The vocabulary of the specification *)

Module Spec.

Import HomePage.

(** "a string of exactly 10 decimal digits" *)
Definition tenDigits (v : JsValue) : bool :=
  match v with
  | Some (JStr s) => (List.length s =? 10)%nat && forallb isDigit s
  | _ => false
  end.

(** "contains a character that is not ..." : a string with a code unit
    outside [allowed]. *)
Definition hasOther (allowed : N -> bool) (v : JsValue) : bool :=
  match v with
  | Some (JStr s) => existsb (fun c => negb (allowed c)) s
  | _ => false
  end.

(** "an ASCII letter or a space" *)
Definition letterOrSpace (c : N) : bool := isAsciiLetter c || isSpace c.

(** A string with at least one code unit. *)
Definition nonEmptyString (v : JsValue) : bool :=
  match v with
  | Some (JStr (_ :: _)) => true
  | _ => false
  end.

(** Membership of a value in a list of strings. *)
Definition oneOf (options : list jsstring) (v : JsValue) : bool :=
  match v with
  | Some (JStr s) => existsb (jsstring_eqb s) options
  | _ => false
  end.

(** "is normalized to an absent value": [None] for an absent or [blank]
    value, the value itself otherwise. *)
Definition absentIf (blank : jsstring -> bool) (v : option jsstring) : option jsstring :=
  match v with
  | None => None
  | Some s => if blank s then None else Some s
  end.

(** The JSON object has a member of that name. *)
Definition hasMember (key : string) (body : Json) : bool :=
  match body with
  | JObj members => existsb (fun m => jsstring_eqb (fst m) (js key)) members
  | _ => false
  end.

(** No request, no error, no toast yet: the page with [values] typed in. *)
Definition filled (values : FormValues) (network : nat -> bool) : World :=
  {| formValues := values; formErrors := []; isSubmitting := false;
     toasts := []; requests := []; apiResolves := network |}.

Definition post (data : FormValues) : ApiCall :=
  {| method := "POST"; url := "/api/leads"; body := data |}.

End Spec.

(** ** Concrete data for the scenarios *)

Module Sample.

Import HomePage.

(** A stand-in for the e-mail pattern: "has an at sign". *)
Definition hasAtSign (s : jsstring) : bool := existsb (N.eqb 64) s.

(** A stand-in for supabase-js: the handle is the pair of credentials and
    no pair is refused. *)
Definition Client : Type := (JsValue * JsValue)%type.
Definition acceptAll (u k : JsValue) : JsError + Client := inr (u, k).

Definition online (_ : nat) : bool := true.
Definition offline (_ : nat) : bool := false.

(** The scenario payload of the specification. *)
Definition anjali : FormValues :=
  {| parentName := str "Anjali Patel";
     childGrade := str "Class 5";
     schoolName := undefined;
     city := str "Pune";
     mobileNumber := str "9876543210";
     email := str "" |}.

(** The same lead with the e-mail left out altogether. *)
Definition anjaliNoEmail : FormValues :=
  {| parentName := str "Anjali Patel";
     childGrade := str "Class 5";
     schoolName := undefined;
     city := str "Pune";
     mobileNumber := str "9876543210";
     email := undefined |}.

Definition shortMobile : FormValues :=
  {| parentName := str "Anjali Patel";
     childGrade := str "Class 5";
     schoolName := undefined;
     city := str "Pune";
     mobileNumber := str "98765";
     email := undefined |}.

(** A name with a tab (U+0009) between its two words. *)
Definition tabbedName : FormValues :=
  {| parentName := Some (JStr (js "Anjali" ++ [9%N] ++ js "Patel"));
     childGrade := str "Class 5";
     schoolName := undefined;
     city := str "Pune";
     mobileNumber := str "9876543210";
     email := undefined |}.

Definition digitInCity : FormValues :=
  {| parentName := str "Anjali Patel";
     childGrade := str "Class 5";
     schoolName := undefined;
     city := str "Pune 411001";
     mobileNumber := str "9876543210";
     email := undefined |}.

(** A grade that neither [gradeOptions] nor the drop-down offers. *)
Definition kindergarten : FormValues :=
  {| parentName := str "Anjali Patel";
     childGrade := str "Kindergarten";
     schoolName := undefined;
     city := str "Pune";
     mobileNumber := str "9876543210";
     email := undefined |}.

Definition noGrade : FormValues :=
  {| parentName := str "Anjali Patel";
     childGrade := str "";
     schoolName := undefined;
     city := str "Pune";
     mobileNumber := str "9876543210";
     email := undefined |}.

(** A lead whose e-mail is one space. *)
Definition blankEmail : NewLead.t :=
  {| NewLead.parentName := js "Anjali Patel";
     NewLead.childGrade := js "Class 5";
     NewLead.schoolName := Some (js "");
     NewLead.city := js "Pune";
     NewLead.mobileNumber := js "9876543210";
     NewLead.email := Some (js " ") |}.

Definition goodConfig : Json :=
  JObj [ (js "supabaseUrl", JStr (js "https://leads.supabase.co"));
         (js "supabaseAnonKey", JStr (js "anon-key")) ].

(** Both members present, the first one empty. *)
Definition emptyUrlConfig : Json :=
  JObj [ (js "supabaseUrl", JStr (js ""));
         (js "supabaseAnonKey", JStr (js "anon-key")) ].

Definition noKeyConfig : Json :=
  JObj [ (js "supabaseUrl", JStr (js "https://leads.supabase.co")) ].

Definition always (r : Supabase.FetchResult) (_ : nat) : Supabase.FetchResult := r.

(** The endpoint is down for the first request and well afterwards. *)
Definition recovering (k : nat) : Supabase.FetchResult :=
  match k with
  | O => Supabase.NetworkFailure
  | S _ => Supabase.Response true (Some goodConfig)
  end.

Definition noAnswer (_ : nat) (_ : Row.t) : LeadService.PostgrestResponse :=
  {| LeadService.data := None; LeadService.error := None |}.

Definition backend (endpoint : nat -> Supabase.FetchResult)
  : LeadService.World Client :=
  {| LeadService.lib := Supabase.start Client endpoint;
     LeadService.now := js "2025-01-01T00:00:00.000Z";
     LeadService.inserted := [];
     LeadService.leads := noAnswer |}.

End Sample.

(* ------------------------------------------------------------------ *)
(** ** pages/home.tsx: the key filters of the inputs *)

Module KeyPress.

(** [const charCode = e.which ? e.which : e.keyCode;] *)
Definition charCode (which keyCode : N) : N :=
  if (which =? 0)%N then keyCode else which.

(** The [onKeyPress] of the name, school and city inputs: whether it calls
    [e.preventDefault()]. *)
Definition lettersPrevented (which keyCode : N) : bool :=
  let c := charCode which keyCode in
  (negb ((65 <=? c) && (c <=? 90))
   && negb ((97 <=? c) && (c <=? 122))
   && negb (c =? 32))%N.

(** The [onKeyPress] of the mobile-number input. *)
Definition digitsPrevented (which keyCode : N) : bool :=
  let c := charCode which keyCode in
  ((31 <? c) && ((c <? 48) || (57 <? c)))%N.

(** [maxLength={10}] *)
Definition mobileMaxLength : nat := 10.

(** The key press that carries the character [c]: [which] and [keyCode]
    are both its code. *)
Definition lettersTyped (s : jsstring) : bool :=
  forallb (fun c => negb (lettersPrevented c c)) s.

(** Text of the mobile input: printable characters the filter let through,
    no more of them than [maxLength] allows. *)
Definition digitsTyped (s : jsstring) : bool :=
  forallb (fun c => negb (digitsPrevented c c) && (31 <? c)%N) s
  && Nat.leb (List.length s) mobileMaxLength.

End KeyPress.

(* ------------------------------------------------------------------ *)
(** ** pages/home.tsx, first revision: the form with a consent box *)

Module FirstPage.

Import Zod.

Inductive Field := Name | Email | Phone | School | Message | Consent.

Record FormValues := {
  name : JsValue;
  email : JsValue;
  phone : JsValue;
  school : JsValue;
  message : JsValue;
  consent : JsValue
}.

(** [const { consent, ...leadData } = data;]: the keys that are posted. *)
Record LeadData := {
  leadName : JsValue;
  leadEmail : JsValue;
  leadPhone : JsValue;
  leadSchool : JsValue;
  leadMessage : JsValue
}.

Definition withoutConsent (data : FormValues) : LeadData :=
  {| leadName := name data; leadEmail := email data; leadPhone := phone data;
     leadSchool := school data; leadMessage := message data |}.

(** The string keys of [formSchema]. *)
Definition nameSchema : Schema := ZString [Min 2 "Name must be at least 2 characters"].
Definition emailSchema : Schema := ZString [IsEmail "Please enter a valid email address"].
Definition phoneSchema : Schema := ZString [Min 10 "Please enter a valid phone number"].
Definition schoolSchema : Schema :=
  ZString [Min 2 "School name must be at least 2 characters"].
Definition messageSchema : Schema := ZOptional (ZString []).

(** [z.boolean().refine(val => val === true, { message })] *)
Definition parseConsent (v : JsValue) : list string :=
  match v with
  | None => ["Required"]
  | Some (JBool true) => []
  | Some (JBool false) => ["You must agree to receive updates"]
  | Some j => [String.append "Expected boolean, received " (parsedType j)]
  end.

Record Toast := { title : string; description : string; variant : string }.

Record ApiCall := { method : string; url : string; body : LeadData }.

Record World := {
  formValues : FormValues;
  formErrors : list (Field * string);
  isSubmitting : bool;
  toasts : list Toast;
  requests : list ApiCall;
  apiResolves : nat -> bool
}.

(** [useForm({ defaultValues: { ... } })] *)
Definition defaultValues : FormValues :=
  {| name := str ""; email := str ""; phone := str ""; school := str "";
     message := str ""; consent := Some (JBool false) |}.

Definition setIsSubmitting (b : bool) : M World unit :=
  modify (fun w =>
    {| formValues := formValues w; formErrors := formErrors w;
       isSubmitting := b; toasts := toasts w;
       requests := requests w; apiResolves := apiResolves w |}).

Definition toast (t : Toast) : M World unit :=
  modify (fun w =>
    {| formValues := formValues w; formErrors := formErrors w;
       isSubmitting := isSubmitting w; toasts := toasts w ++ [t];
       requests := requests w; apiResolves := apiResolves w |}).

Definition setFormErrors (e : list (Field * string)) : M World unit :=
  modify (fun w =>
    {| formValues := formValues w; formErrors := e;
       isSubmitting := isSubmitting w; toasts := toasts w;
       requests := requests w; apiResolves := apiResolves w |}).

(** [apiRequest(method, url, data)], as on the current page. *)
Definition apiRequest (method url : string) (data : LeadData) : M World unit :=
  fun w =>
    let w' :=
      {| formValues := formValues w; formErrors := formErrors w;
         isSubmitting := isSubmitting w; toasts := toasts w;
         requests := requests w ++ [ {| method := method; url := url; body := data |} ];
         apiResolves := apiResolves w |} in
    if apiResolves w (List.length (requests w))
    then (Return tt, w')
    else (Throw (mkError "Error" "request failed"), w').

(** [form.reset()] *)
Definition form_reset : M World unit :=
  modify (fun w =>
    {| formValues := defaultValues; formErrors := [];
       isSubmitting := isSubmitting w; toasts := toasts w;
       requests := requests w; apiResolves := apiResolves w |}).

Definition successToast : Toast :=
  {| title := "Form submitted successfully!";
     description := "Thank you for your interest in Saarthi. We'll get back to you soon.";
     variant := "default" |}.

Definition errorToast : Toast :=
  {| title := "Error submitting form";
     description := "Please try again later.";
     variant := "destructive" |}.

(** [const onSubmit = async (data) => { ... }] *)
Definition onSubmit (data : FormValues) : M World unit :=
  tryFinally
    (tryCatch
       (setIsSubmitting true ;;
        let leadData := withoutConsent data in
        apiRequest "POST" "/api/leads" leadData ;;
        toast successToast ;;
        form_reset)
       (fun _error => toast errorToast))
    (setIsSubmitting false).

Section Form.

Variable emailRegex : jsstring -> bool.

(** [formSchema.safeParse(values)]: the issues, in key order. Every key has
    one check, hence one issue at most, and the resolver keeps them all. *)
Definition zodResolver (values : FormValues) : list (Field * string) :=
  map (pair Name) (parse emailRegex nameSchema (name values))
  ++ map (pair Email) (parse emailRegex emailSchema (email values))
  ++ map (pair Phone) (parse emailRegex phoneSchema (phone values))
  ++ map (pair School) (parse emailRegex schoolSchema (school values))
  ++ map (pair Message) (parse emailRegex messageSchema (message values))
  ++ map (pair Consent) (parseConsent (consent values)).

(** [form.handleSubmit(onValid)] *)
Definition handleSubmit (onValid : FormValues -> M World unit) : M World unit :=
  values <- gets formValues ;;
  let errors := zodResolver values in
  setFormErrors errors ;;
  match errors with
  | [] => onValid values
  | _ :: _ => ret tt
  end.

Definition submit : M World unit := handleSubmit onSubmit.

End Form.

End FirstPage.

(* ------------------------------------------------------------------ *)
(** ** More vocabulary *)

Module Rules.

Import HomePage.

(** A string of at least [minLength] code units, letters and white space
    only. *)
Definition lettersOfLength (minLength : nat) (v : JsValue) : bool :=
  match v with
  | Some (JStr s) => Nat.leb minLength (List.length s) && forallb isLetterOrWhiteSpace s
  | _ => false
  end.

(** Absent, or a string that [ok] accepts. *)
Definition absentOr (ok : jsstring -> bool) (v : JsValue) : bool :=
  match v with
  | None => true
  | Some (JStr s) => ok s
  | Some _ => false
  end.

(** A string that [ok] accepts. *)
Definition stringThat (ok : jsstring -> bool) (v : JsValue) : bool :=
  match v with
  | Some (JStr s) => ok s
  | _ => false
  end.

(** A string of at least [minLength] code units. *)
Definition stringOfLength (minLength : nat) (v : JsValue) : bool :=
  match v with
  | Some (JStr s) => Nat.leb minLength (List.length s)
  | _ => false
  end.

(** The rules of the current form, key by key. *)
Definition accepts (emailRegex : jsstring -> bool) (v : FormValues) : bool :=
  lettersOfLength 2 (parentName v)
  && Spec.nonEmptyString (childGrade v)
  && absentOr (forallb isLetterOrWhiteSpace) (schoolName v)
  && lettersOfLength 2 (city v)
  && Spec.tenDigits (mobileNumber v)
  && absentOr emailRegex (email v).

(** The rules of the first form. *)
Definition acceptsFirst (emailRegex : jsstring -> bool) (v : FirstPage.FormValues) : bool :=
  stringOfLength 2 (FirstPage.name v)
  && stringThat emailRegex (FirstPage.email v)
  && stringOfLength 10 (FirstPage.phone v)
  && stringOfLength 2 (FirstPage.school v)
  && absentOr (fun _ => true) (FirstPage.message v)
  && match FirstPage.consent v with Some (JBool true) => true | _ => false end.

(** The row as the table sends it back, with the [id] it gave it. *)
Definition echo (id : jsstring) (row : Row.t) : Stored.t :=
  {| Stored.id := id;
     Stored.parent_name := Row.parent_name row;
     Stored.child_grade := Row.child_grade row;
     Stored.school_name := Row.school_name row;
     Stored.city := Row.city row;
     Stored.mobile_number := Row.mobile_number row;
     Stored.email := Row.email row;
     Stored.created_at := Row.created_at row |}.

(** The cached handle, if any, was made from the credentials the module
    holds, and both are truthy. *)
Definition consistent (SupabaseClient : Type)
  (createClient : JsValue -> JsValue -> JsError + SupabaseClient)
  (w : Supabase.World SupabaseClient) : Prop :=
  match Supabase.supabaseClient w with
  | None => True
  | Some client =>
      createClient (Supabase.supabaseUrl w) (Supabase.supabaseAnonKey w) = inr client
      /\ truthy (Supabase.supabaseUrl w) = true
      /\ truthy (Supabase.supabaseAnonKey w) = true
  end.

End Rules.

(** ** More concrete data *)

Module Sample2.

Import Sample.

(** A table that stores what it is given and answers with the row. *)
Definition storing (id : jsstring) (_ : nat) (row : Row.t) : LeadService.PostgrestResponse :=
  {| LeadService.data := Some (Rules.echo id row); LeadService.error := None |}.

Definition shop : LeadService.World Client :=
  {| LeadService.lib :=
       Supabase.start Client (always (Supabase.Response true (Some goodConfig)));
     LeadService.now := js "2025-01-01T00:00:00.000Z";
     LeadService.inserted := [];
     LeadService.leads := storing (js "lead-1") |}.

Definition firstLead : FirstPage.FormValues :=
  {| FirstPage.name := str "Anjali Patel";
     FirstPage.email := str "anjali@example.com";
     FirstPage.phone := str "9876543210";
     FirstPage.school := str "City School";
     FirstPage.message := undefined;
     FirstPage.consent := Some (JBool true) |}.

Definition firstFilled (values : FirstPage.FormValues) (network : nat -> bool)
  : FirstPage.World :=
  {| FirstPage.formValues := values; FirstPage.formErrors := [];
     FirstPage.isSubmitting := false; FirstPage.toasts := [];
     FirstPage.requests := []; FirstPage.apiResolves := network |}.

End Sample2.

(* ================================================================== *)
(** * Properties *)

(** ** What the three patterns accept *)

Section RegexFacts.

Lemma test_Void (s : jsstring) : test Void s = false.
Proof. induction s as [|c s IH]; simpl; auto. Qed.

Lemma test_Eps (s : jsstring) :
  test Eps s = match s with [] => true | _ :: _ => false end.
Proof. destruct s; simpl; auto using test_Void. Qed.

Lemma test_Alt (r1 r2 : regex) (s : jsstring) :
  test (Alt r1 r2) s = test r1 s || test r2 s.
Proof.
  revert r1 r2; induction s as [|c s IH]; intros r1 r2; simpl; auto.
Qed.

Lemma test_Cat_Void (r : regex) (s : jsstring) : test (Cat Void r) s = false.
Proof. induction s as [|c s IH]; simpl; auto. Qed.

Lemma test_Cat_Eps (r : regex) (s : jsstring) : test (Cat Eps r) s = test r s.
Proof.
  destruct s as [|c s]; simpl; auto.
  now rewrite test_Alt, test_Cat_Void.
Qed.

(** One step of a pattern that starts with a class. *)
Lemma test_Cat_Class (p : N -> bool) (r : regex) (s : jsstring) :
  test (Cat (Class p) r) s =
  match s with
  | [] => false
  | c :: rest => p c && test r rest
  end.
Proof.
  destruct s as [|c s]; simpl; auto.
  destruct (p c); simpl.
  - apply test_Cat_Eps.
  - apply test_Cat_Void.
Qed.

Lemma test_Star_Class (p : N -> bool) (s : jsstring) :
  test (Star (Class p)) s = forallb p s.
Proof.
  induction s as [|c s IH]; simpl; auto.
  destruct (p c); simpl.
  - now rewrite test_Cat_Eps.
  - apply test_Cat_Void.
Qed.

Lemma test_Plus_Class (p : N -> bool) (s : jsstring) :
  test (Plus (Class p)) s =
  match s with [] => false | _ :: _ => forallb p s end.
Proof.
  unfold Plus. rewrite test_Cat_Class.
  destruct s as [|c s]; auto.
  now rewrite test_Star_Class.
Qed.

Lemma test_Repeat_Class (p : N -> bool) (n : nat) (s : jsstring) :
  test (Repeat n (Class p)) s = (List.length s =? n)%nat && forallb p s.
Proof.
  revert s; induction n as [|n IH]; intros s.
  - simpl Repeat. rewrite test_Eps. destruct s; reflexivity.
  - simpl Repeat. rewrite test_Cat_Class.
    destruct s as [|c s]; simpl; auto.
    rewrite IH. destruct (p c); simpl; auto using andb_false_r.
Qed.

(** [/^\d{10}$/] accepts the strings of ten decimal digits and no other. *)
Lemma mobileRegex_spec (s : jsstring) :
  test mobileRegex s = (List.length s =? 10)%nat && forallb isDigit s.
Proof. apply test_Repeat_Class. Qed.

(** [/^[a-zA-Z\s]+$/] rejects a string with a code unit of another kind. *)
Lemma nameRegex_other (s : jsstring) :
  existsb (fun c => negb (isLetterOrWhiteSpace c)) s = true ->
  test nameRegex s = false.
Proof.
  intros H. unfold nameRegex. rewrite test_Plus_Class.
  destruct s as [|c s]; auto.
  apply not_true_iff_false. intros Hall.
  rewrite forallb_forall in Hall.
  apply existsb_exists in H. destruct H as [x [Hin Hx]].
  rewrite (Hall x Hin) in Hx. discriminate.
Qed.

Lemma schoolRegex_other (s : jsstring) :
  existsb (fun c => negb (isLetterOrWhiteSpace c)) s = true ->
  test schoolRegex s = false.
Proof.
  intros H. unfold schoolRegex. rewrite test_Star_Class.
  apply not_true_iff_false. intros Hall.
  rewrite forallb_forall in Hall.
  apply existsb_exists in H. destruct H as [x [Hin Hx]].
  rewrite (Hall x Hin) in Hx. discriminate.
Qed.

End RegexFacts.

(** ** The submission path of the form *)

Section FormFacts.

Import HomePage Zod Spec.

Variable emailRegex : jsstring -> bool.

Lemma Field_eqb_refl (f : Field) : Field_eqb f f = true.
Proof. destruct f; reflexivity. Qed.

Lemma hasError_app (f : Field) (a b : list (Field * string)) :
  hasError f (a ++ b) = hasError f a || hasError f b.
Proof. unfold hasError. apply existsb_app. Qed.

Lemma hasError_tagged (f g : Field) (issues : list string) :
  hasError f (map (pair g) issues) = Field_eqb g f && negb (noIssue issues).
Proof.
  unfold hasError.
  induction issues as [|m issues IH]; simpl.
  - now rewrite andb_false_r.
  - destruct (Field_eqb g f); simpl; auto.
Qed.

(** A field has an issue exactly when its own schema raises one. *)
Lemma hasError_safeParse (f : Field) (schema : list (Field * Schema)) (v : FormValues) :
  hasError f (safeParse emailRegex schema v) =
  existsb (fun entry =>
             Field_eqb (fst entry) f
             && negb (noIssue (parse emailRegex (snd entry) (field (fst entry) v))))
          schema.
Proof.
  induction schema as [|entry schema IH]; simpl; auto.
  now rewrite hasError_app, hasError_tagged, IH.
Qed.

(** The resolver drops repeated issues of a field and nothing else. *)
Lemma hasError_toFieldErrors (f : Field) (issues acc : list (Field * string)) :
  hasError f (toFieldErrors issues acc) = hasError f acc || hasError f issues.
Proof.
  revert acc; induction issues as [|i issues IH]; intros acc; simpl.
  - now rewrite orb_false_r.
  - rewrite IH. destruct (hasError (fst i) acc) eqn:Hi.
    + destruct (Field_eqb (fst i) f) eqn:Hf; simpl; auto.
      assert (f = fst i) by (destruct f, (fst i); simpl in Hf; congruence).
      subst f. now rewrite Hi.
    + rewrite hasError_app. simpl. rewrite orb_false_r.
      now rewrite orb_assoc.
Qed.

Lemma hasError_zodResolver (f : Field) (v : FormValues) :
  hasError f (zodResolver emailRegex v) = hasError f (safeParse emailRegex formSchema v).
Proof. unfold zodResolver. now rewrite hasError_toFieldErrors. Qed.

Lemma hasError_nonempty (f : Field) (errors : list (Field * string)) :
  hasError f errors = true -> errors <> [].
Proof. intros H ->. discriminate. Qed.

(** A press of submit on values the resolver objects to: the errors are
    recorded and nothing else happens. *)
Lemma submit_invalid (w : World) :
  zodResolver emailRegex (formValues w) <> [] ->
  submit emailRegex w
  = (Return tt, setFormErrors (zodResolver emailRegex (formValues w)) w).
Proof.
  intros H. unfold submit, handleSubmit, bind, gets, modify. simpl.
  destruct (zodResolver emailRegex (formValues w)); [congruence | reflexivity].
Qed.

(** A press of submit on valid values runs [onSubmit] on them. *)
Lemma submit_valid (w : World) :
  zodResolver emailRegex (formValues w) = [] ->
  submit emailRegex w = onSubmit (formValues w) (setFormErrors [] w).
Proof.
  intros H. unfold submit, handleSubmit, bind, gets, modify. simpl.
  now rewrite H.
Qed.

(** [onSubmit], run: one request and then one of two endings. *)
Lemma onSubmit_run (data : FormValues) (w : World) :
  onSubmit data w =
  (Return tt,
   if apiResolves w (List.length (requests w))
   then {| formValues := defaultValues; formErrors := [];
           isSubmitting := false; toasts := toasts w ++ [successToast];
           requests := requests w ++ [post data];
           apiResolves := apiResolves w |}
   else {| formValues := formValues w; formErrors := formErrors w;
           isSubmitting := false; toasts := toasts w ++ [errorToast];
           requests := requests w ++ [post data];
           apiResolves := apiResolves w |}).
Proof.
  unfold onSubmit, tryFinally, tryCatch, bind, setIsSubmitting, apiRequest,
    toast, form_reset, modify. simpl.
  destruct (apiResolves w (List.length (requests w))); reflexivity.
Qed.

(** A field with an issue blocks the submission. *)
Lemma submit_blocked (f : Field) (w : World) :
  hasError f (safeParse emailRegex formSchema (formValues w)) = true ->
  fst (submit emailRegex w) = Return tt
  /\ hasError f (formErrors (snd (submit emailRegex w))) = true
  /\ requests (snd (submit emailRegex w)) = requests w
  /\ toasts (snd (submit emailRegex w)) = toasts w
  /\ formValues (snd (submit emailRegex w)) = formValues w.
Proof.
  intros H. rewrite <- hasError_zodResolver in H.
  rewrite (submit_invalid w (@hasError_nonempty f _ H)). simpl. auto.
Qed.

End FormFacts.

(** ** The lead form: validation and submission *)

Section LeadForm.

Import HomePage Zod Spec.

Variable emailRegex : jsstring -> bool.

Ltac field_issues :=
  rewrite hasError_safeParse; unfold formSchema;
  cbn -[mobileRegex nameRegex schoolRegex test].

(** The mobile number raises an issue unless it is ten decimal digits. *)
Lemma mobileNumber_issue (v : FormValues) :
  hasError MobileNumber (safeParse emailRegex formSchema v)
  = negb (tenDigits (mobileNumber v)).
Proof.
  field_issues. rewrite orb_false_r.
  destruct (mobileNumber v) as [[ | | |s| | ]|]; try reflexivity.
  cbn -[mobileRegex test]. rewrite mobileRegex_spec.
  now destruct ((List.length s =? 10)%nat && forallb isDigit s).
Qed.

(** The grade raises an issue unless it is a string that is not empty. *)
Lemma childGrade_issue (v : FormValues) :
  hasError ChildGrade (safeParse emailRegex formSchema v)
  = negb (nonEmptyString (childGrade v)).
Proof.
  field_issues. rewrite orb_false_r.
  destruct (childGrade v) as [[ | | |s| | ]|]; try reflexivity.
  now destruct s.
Qed.

(** A name, a city or a school with a code unit that is neither a letter
    nor white space raises an issue. *)
Lemma pattern_issue (f : Field) (v : FormValues) :
  In f [ParentName; City; SchoolName] ->
  hasOther isLetterOrWhiteSpace (field f v) = true ->
  hasError f (safeParse emailRegex formSchema v) = true.
Proof.
  intros Hf Hother.
  assert (Hcases : f = ParentName \/ f = City \/ f = SchoolName)
    by (simpl in Hf; intuition).
  destruct Hcases as [-> | [-> | ->]]; field_issues; simpl in Hother.
  - destruct (parentName v) as [[ | | |s| | ]|]; try discriminate.
    cbn -[nameRegex test]. rewrite (nameRegex_other s Hother).
    now destruct (List.length s) as [|[|n]].
  - destruct (city v) as [[ | | |s| | ]|]; try discriminate.
    cbn -[nameRegex test]. rewrite (nameRegex_other s Hother).
    now destruct (List.length s) as [|[|n]].
  - destruct (schoolName v) as [[ | | |s| | ]|]; try discriminate.
    cbn -[schoolRegex test]. now rewrite (schoolRegex_other s Hother).
Qed.

(** The default values do not pass the resolver. *)
Lemma defaultValues_invalid :
  hasError ParentName (safeParse emailRegex formSchema defaultValues) = true.
Proof. field_issues. reflexivity. Qed.

(** C1: a payload whose [mobileNumber] is not a string of exactly ten
    decimal digits is turned down by the client-side validation, with an
    error recorded on the [mobileNumber] field, and the submission issues
    no request: the log of [apiRequest] calls is what it was. *)
Theorem C1_mobile_number_rejected_locally (w : World) :
  tenDigits (mobileNumber (formValues w)) = false ->
  fst (submit emailRegex w) = Return tt
  /\ hasError MobileNumber (formErrors (snd (submit emailRegex w))) = true
  /\ requests (snd (submit emailRegex w)) = requests w.
Proof.
  intros H.
  destruct (@submit_blocked emailRegex MobileNumber w) as (Hr & He & Hq & _).
  - rewrite mobileNumber_issue, H. reflexivity.
  - auto.
Qed.

(** C2: for a payload that passes the client-side validation, the
    submission issues exactly one request, a POST to /api/leads carrying
    that payload, and nothing more; when the request resolves the user is
    shown the success toast (and the error toast when it does not). *)
Theorem C2_valid_payload_posted_once (w : World) :
  zodResolver emailRegex (formValues w) = [] ->
  requests (snd (submit emailRegex w)) = requests w ++ [post (formValues w)]
  /\ toasts (snd (submit emailRegex w))
     = toasts w ++ [if apiResolves w (List.length (requests w))
                    then successToast else errorToast].
Proof.
  intros H. rewrite (@submit_valid emailRegex w H), onSubmit_run. simpl.
  destruct (apiResolves w (List.length (requests w))); simpl; auto.
Qed.

(** C3, as the code has it: a payload in which [parentName], [city] or
    [schoolName] is a string with a code unit that is neither an ASCII
    letter nor white space (the class [\s]: the space, but also the tab,
    the line terminators and the Unicode spaces) is turned down locally,
    with an error on that field and no request issued. *)
Theorem C3_names_letters_and_white_space (f : Field) (w : World) :
  In f [ParentName; City; SchoolName] ->
  hasOther isLetterOrWhiteSpace (field f (formValues w)) = true ->
  fst (submit emailRegex w) = Return tt
  /\ hasError f (formErrors (snd (submit emailRegex w))) = true
  /\ requests (snd (submit emailRegex w)) = requests w.
Proof.
  intros Hf Hother.
  destruct (@submit_blocked emailRegex f w) as (Hr & He & Hq & _).
  - now apply pattern_issue.
  - auto.
Qed.

(** C4, as the code has it: the validation accepts a [childGrade] exactly
    when it is a string that is not empty, and does not compare it with the
    grades on offer; a payload whose [childGrade] is empty or not a string
    gets an error on that field and issues no request. *)
Theorem C4_grade_only_required (w : World) :
  hasError ChildGrade (formErrors (snd (submit emailRegex w)))
  = negb (nonEmptyString (childGrade (formValues w)))
  /\ (nonEmptyString (childGrade (formValues w)) = false ->
      requests (snd (submit emailRegex w)) = requests w).
Proof.
  split.
  - rewrite <- childGrade_issue, <- hasError_zodResolver.
    destruct (zodResolver emailRegex (formValues w)) as [|e errors] eqn:Hz.
    + rewrite (@submit_valid emailRegex w Hz), onSubmit_run. simpl.
      now destruct (apiResolves w (List.length (requests w))).
    + rewrite submit_invalid by (rewrite Hz; discriminate).
      simpl. now rewrite Hz.
  - intros H.
    destruct (@submit_blocked emailRegex ChildGrade w) as (_ & _ & Hq & _); auto.
    rewrite childGrade_issue, H. reflexivity.
Qed.

(** C5, on the code: whatever the e-mail pattern, as long as it does not
    match the empty string, the scenario payload with [email: ""] is turned
    down: the only error is the one on [email], and nothing is posted. *)
Theorem C5_empty_email_blocks_submission (network : nat -> bool) :
  emailRegex [] = false ->
  submit emailRegex (filled Sample.anjali network)
  = (Return tt,
     setFormErrors [(Email, "Please enter a valid email address")]
                   (filled Sample.anjali network)).
Proof.
  intros H.
  assert (Hz : zodResolver emailRegex Sample.anjali
               = [(Email, "Please enter a valid email address")]).
  { unfold zodResolver, safeParse, formSchema. cbn. now rewrite H. }
  rewrite submit_invalid; simpl; rewrite Hz; [reflexivity | discriminate].
Qed.

(** C9: when the request of a valid submission fails, the user is shown
    the error toast, the values of the form are left as they were, and the
    submission has issued that one request and no other. *)
Theorem C9_failure_keeps_form (w : World) :
  zodResolver emailRegex (formValues w) = [] ->
  apiResolves w (List.length (requests w)) = false ->
  fst (submit emailRegex w) = Return tt
  /\ toasts (snd (submit emailRegex w)) = toasts w ++ [errorToast]
  /\ formValues (snd (submit emailRegex w)) = formValues w
  /\ requests (snd (submit emailRegex w)) = requests w ++ [post (formValues w)].
Proof.
  intros Hvalid Hfail.
  rewrite (@submit_valid emailRegex w Hvalid), onSubmit_run. simpl.
  rewrite Hfail. simpl. auto.
Qed.

(** C10: after a successful submission every field of the form holds its
    default value, the empty string, and a second press of submit issues no
    request: the defaults do not pass the validation. *)
Theorem C10_success_resets_form (w : World) :
  zodResolver emailRegex (formValues w) = [] ->
  apiResolves w (List.length (requests w)) = true ->
  formValues (snd (submit emailRegex w)) = defaultValues
  /\ (forall f, field f (formValues (snd (submit emailRegex w))) = str "")
  /\ requests (snd (submit emailRegex (snd (submit emailRegex w))))
     = requests (snd (submit emailRegex w)).
Proof.
  intros Hvalid Hok.
  assert (Hreset : formValues (snd (submit emailRegex w)) = defaultValues).
  { rewrite (@submit_valid emailRegex w Hvalid), onSubmit_run. simpl. now rewrite Hok. }
  split; [exact Hreset | split].
  - intros f. rewrite Hreset. now destruct f.
  - destruct (@submit_blocked emailRegex ParentName (snd (submit emailRegex w)))
      as (_ & _ & Hq & _); auto.
    rewrite Hreset. apply defaultValues_invalid.
Qed.

End LeadForm.

(** Witnesses and counterexamples of the form claims. *)

Section LeadFormScenarios.

Import HomePage Spec Sample.

Lemma C1_short_mobile_witness :
  tenDigits (mobileNumber (formValues (filled shortMobile online))) = false
  /\ (fst (submit hasAtSign (filled shortMobile online)) = Return tt
      /\ hasError MobileNumber
           (formErrors (snd (submit hasAtSign (filled shortMobile online)))) = true
      /\ requests (snd (submit hasAtSign (filled shortMobile online)))
         = requests (filled shortMobile online)).
Proof.
  split; [reflexivity|].
  apply (@C1_mobile_number_rejected_locally hasAtSign (filled shortMobile online)).
  reflexivity.
Defined.

Lemma C2_valid_payload_witness :
  zodResolver hasAtSign (formValues (filled anjaliNoEmail online)) = []
  /\ (requests (snd (submit hasAtSign (filled anjaliNoEmail online)))
      = requests (filled anjaliNoEmail online) ++ [post anjaliNoEmail]
      /\ toasts (snd (submit hasAtSign (filled anjaliNoEmail online)))
         = toasts (filled anjaliNoEmail online) ++ [successToast]).
Proof.
  split; [reflexivity|].
  apply (@C2_valid_payload_posted_once hasAtSign (filled anjaliNoEmail online)).
  reflexivity.
Defined.

(** C3, as stated, fails: a tab is neither an ASCII letter nor a space, and
    the name that contains one passes the validation and is posted. *)
Lemma C3_tab_in_name_is_posted :
  hasOther letterOrSpace (parentName (formValues (filled tabbedName online))) = true
  /\ formErrors (snd (submit hasAtSign (filled tabbedName online))) = []
  /\ requests (snd (submit hasAtSign (filled tabbedName online))) = [post tabbedName].
Proof. repeat split; reflexivity. Qed.

Lemma C3_digit_in_city_witness :
  In City [ParentName; City; SchoolName]
  /\ hasOther isLetterOrWhiteSpace (field City (formValues (filled digitInCity online))) = true
  /\ (fst (submit hasAtSign (filled digitInCity online)) = Return tt
      /\ hasError City (formErrors (snd (submit hasAtSign (filled digitInCity online)))) = true
      /\ requests (snd (submit hasAtSign (filled digitInCity online)))
         = requests (filled digitInCity online)).
Proof.
  split; [simpl; auto|]. split; [reflexivity|].
  apply (@C3_names_letters_and_white_space hasAtSign City (filled digitInCity online)).
  - simpl; auto.
  - reflexivity.
Defined.

(** C4, as stated, fails: a grade that is on offer nowhere passes the
    validation and is posted. *)
Lemma C4_unlisted_grade_is_posted :
  oneOf gradeOptions (childGrade (formValues (filled kindergarten online))) = false
  /\ oneOf gradeSelectItems (childGrade (formValues (filled kindergarten online))) = false
  /\ formErrors (snd (submit hasAtSign (filled kindergarten online))) = []
  /\ requests (snd (submit hasAtSign (filled kindergarten online))) = [post kindergarten].
Proof. repeat split; reflexivity. Qed.

Lemma C4_no_grade_witness :
  nonEmptyString (childGrade (formValues (filled noGrade online))) = false
  /\ requests (snd (submit hasAtSign (filled noGrade online)))
     = requests (filled noGrade online).
Proof.
  split; [reflexivity|].
  apply (proj2 (@C4_grade_only_required hasAtSign (filled noGrade online))).
  reflexivity.
Defined.

Lemma C5_scenario_witness :
  hasAtSign [] = false
  /\ submit hasAtSign (filled anjali online)
     = (Return tt,
        setFormErrors [(Email, "Please enter a valid email address")]
                      (filled anjali online)).
Proof.
  split; [reflexivity|].
  apply (@C5_empty_email_blocks_submission hasAtSign online). reflexivity.
Defined.

Lemma C9_offline_witness :
  zodResolver hasAtSign (formValues (filled anjaliNoEmail offline)) = []
  /\ apiResolves (filled anjaliNoEmail offline)
       (List.length (requests (filled anjaliNoEmail offline))) = false
  /\ (fst (submit hasAtSign (filled anjaliNoEmail offline)) = Return tt
      /\ toasts (snd (submit hasAtSign (filled anjaliNoEmail offline)))
         = toasts (filled anjaliNoEmail offline) ++ [errorToast]
      /\ formValues (snd (submit hasAtSign (filled anjaliNoEmail offline)))
         = formValues (filled anjaliNoEmail offline)
      /\ requests (snd (submit hasAtSign (filled anjaliNoEmail offline)))
         = requests (filled anjaliNoEmail offline) ++ [post anjaliNoEmail]).
Proof.
  split; [reflexivity|]. split; [reflexivity|].
  apply (@C9_failure_keeps_form hasAtSign (filled anjaliNoEmail offline));
    reflexivity.
Defined.

Lemma C10_reset_witness :
  zodResolver hasAtSign (formValues (filled anjaliNoEmail online)) = []
  /\ apiResolves (filled anjaliNoEmail online)
       (List.length (requests (filled anjaliNoEmail online))) = true
  /\ (formValues (snd (submit hasAtSign (filled anjaliNoEmail online))) = defaultValues
      /\ (forall f, field f (formValues (snd (submit hasAtSign (filled anjaliNoEmail online))))
                    = str "")
      /\ requests (snd (submit hasAtSign (snd (submit hasAtSign (filled anjaliNoEmail online)))))
         = requests (snd (submit hasAtSign (filled anjaliNoEmail online)))).
Proof.
  split; [reflexivity|]. split; [reflexivity|].
  apply (@C10_success_resets_form hasAtSign (filled anjaliNoEmail online));
    reflexivity.
Defined.

(** The page itself posts what was typed: an empty [schoolName] travels to
    /api/leads as the empty string. *)
Example onSubmit_posts_values_as_typed :
  map (fun call => schoolName (body call))
      (requests (snd (submit hasAtSign
                        (filled {| parentName := str "Anjali Patel";
                                   childGrade := str "Class 5";
                                   schoolName := str "";
                                   city := str "Pune";
                                   mobileNumber := str "9876543210";
                                   email := undefined |} online))))
  = [str ""].
Proof. reflexivity. Qed.

End LeadFormScenarios.

(** ** The configuration loader *)

Section LoaderFacts.

Import Supabase.

Variable SupabaseClient : Type.
Variable createClient : JsValue -> JsValue -> JsError + SupabaseClient.

Local Abbreviation World := (Supabase.World SupabaseClient).
Local Abbreviation initSupabase := (Supabase.initSupabase createClient).
Local Abbreviation getSupabase := (Supabase.getSupabase createClient).
Local Abbreviation calls := (Supabase.calls createClient).
Local Abbreviation configUsable := (Supabase.configUsable createClient).

Ltac run_init :=
  unfold Supabase.initSupabase, tryCatch, bind, fetchConfig, throwIf, json,
    member, setCredentials, setClient, consoleWrite, modify, throw, ret,
    configUsable, initializations;
  cbn -[js string_dec].

(** One run of [initSupabase]: it issues one request; it returns a handle,
    caches it and reports it on the console exactly when the response is
    usable; otherwise it throws and leaves the cache as it was. *)
Lemma initSupabase_run (w : World) :
  fetched (snd (initSupabase w)) = S (fetched w)
  /\ match fst (initSupabase w) with
     | Return c =>
         configUsable (configEndpoint w (fetched w)) = true
         /\ supabaseClient (snd (initSupabase w)) = Some c
         /\ initializations (snd (initSupabase w)) = S (initializations w)
     | Throw _ =>
         configUsable (configEndpoint w (fetched w)) = false
         /\ supabaseClient (snd (initSupabase w)) = supabaseClient w
         /\ initializations (snd (initSupabase w)) = initializations w
     end.
Proof.
  run_init.
  destruct (configEndpoint w (fetched w)) as [|[|] [[ |b|n|s|items|members]|]];
    cbn -[js string_dec];
    try (rewrite count_occ_app; cbn; repeat split; auto with arith; fail).
  destruct (truthy (getMember (js "supabaseUrl") members)); cbn -[js string_dec];
    try (rewrite count_occ_app; cbn; repeat split; auto with arith; fail).
  destruct (truthy (getMember (js "supabaseAnonKey") members)); cbn -[js string_dec];
    try (rewrite count_occ_app; cbn; repeat split; auto with arith; fail).
  destruct (createClient _ _) as [refused|client]; cbn -[js string_dec];
    rewrite count_occ_app; cbn; repeat split; auto with arith.

Qed.

(** With a handle in the cache [getSupabase] hands it out and touches
    nothing: no request, no write. *)
Lemma getSupabase_cached (w : World) (c : SupabaseClient) :
  supabaseClient w = Some c -> getSupabase w = (Return c, w).
Proof.
  intros H. unfold Supabase.getSupabase, bind, gets, ret. now rewrite H.
Qed.

(** With an empty cache [getSupabase] is [initSupabase]. *)
Lemma getSupabase_uncached (w : World) :
  supabaseClient w = None -> getSupabase w = initSupabase w.
Proof.
  intros H. unfold Supabase.getSupabase, bind, gets.
  rewrite H. now destruct (initSupabase w) as [[c|e] w'].
Qed.

(** Once ready, always ready: every later call returns the cached handle. *)
Lemma calls_ready (n : nat) (w : World) (c : SupabaseClient) :
  supabaseClient w = Some c -> calls n w = (repeat (Return c) n, w).
Proof.
  intros H. induction n as [|n IH]; simpl; auto.
  now rewrite (getSupabase_cached w H), IH.
Qed.

(** Over any run of calls at most one initialization goes through, and
    none when the loader is ready at the start. *)
Lemma calls_initializations (n : nat) (w : World) :
  initializations (snd (calls n w))
  <= initializations w + match supabaseClient w with Some _ => 0 | None => 1 end.
Proof.
  revert w; induction n as [|n IH]; intros w.
  - simpl. lia.
  - destruct (supabaseClient w) as [c|] eqn:Hc.
    + rewrite (calls_ready (S n) w Hc). simpl. lia.
    + simpl. rewrite (getSupabase_uncached w Hc).
      destruct (initSupabase_run w) as [_ Hrun].
      destruct (initSupabase w) as [[c|e] w1]; simpl in Hrun;
        destruct Hrun as (_ & Hcache & Hcount).
      * rewrite (calls_ready n w1 Hcache). simpl. lia.
      * specialize (IH w1). rewrite Hcache, Hc, Hcount in IH.
        destruct (calls n w1) as [rs w2]. simpl in *. exact IH.
Qed.

End LoaderFacts.

Section LoaderClaims.

Import Supabase Spec.

Variable SupabaseClient : Type.
Variable createClient : JsValue -> JsValue -> JsError + SupabaseClient.

Local Abbreviation World := (Supabase.World SupabaseClient).
Local Abbreviation initSupabase := (Supabase.initSupabase createClient).
Local Abbreviation getSupabase := (Supabase.getSupabase createClient).
Local Abbreviation calls := (Supabase.calls createClient).
Local Abbreviation configUsable := (Supabase.configUsable createClient).

(** A member that is not there reads as [undefined]. *)
Lemma getMember_missing (key : string) (members : list (jsstring * Json)) :
  hasMember key (JObj members) = false -> getMember (js key) members = undefined.
Proof.
  simpl. induction members as [|[k v] members IH]; simpl; auto.
  intros H. apply orb_false_iff in H. destruct H as [Hk Hrest].
  now rewrite (IH Hrest), Hk.
Qed.

(** A body without [supabaseAnonKey] is not usable. *)
Lemma missing_key_unusable (ok : bool) (body : Json) :
  hasMember "supabaseAnonKey" body = false ->
  configUsable (Response ok (Some body)) = false.
Proof.
  intros H. unfold Supabase.configUsable.
  destruct body as [ |b|n|s|items|members]; try apply andb_false_r.
  rewrite (getMember_missing _ _ H). simpl.
  now rewrite !andb_false_r.
Qed.

(** What the start-up effect of [App] leaves in the loader: at most one
    initialization, and a handle exactly when there was one. *)
Lemma setupSupabase_loader (endpoint : nat -> FetchResult) :
  let l := App.lib (snd (App.setupSupabase createClient
                           (App.mount (start SupabaseClient endpoint)))) in
  initializations l + match supabaseClient l with Some _ => 0 | None => 1 end <= 1.
Proof.
  destruct (initSupabase_run createClient (start SupabaseClient endpoint))
    as [_ Hrun].
  unfold App.setupSupabase, App.mount, tryCatch, bind, lift,
    App.setSupabaseInitialized, App.setInitError, modify. simpl.
  destruct (initSupabase (start SupabaseClient endpoint)) as [[c|e] l1];
    simpl in *; destruct Hrun as (_ & Hcache & Hcount).
  - rewrite Hcache, Hcount. reflexivity.
  - unfold consoleWrite, modify, initializations in *. simpl.
    rewrite Hcache, count_occ_app, Hcount. reflexivity.
Qed.

(** C7: [getSupabase] hands out the cached handle whenever there is one,
    without a request and without touching the loader, and so does every
    later call; with no handle cached it is [initSupabase], which issues one
    configuration request and leaves the loader ready with the handle it
    returns, or, when it throws, uninitialized, so that the next call asks
    again. Over any number of calls, each awaited before the next, at most
    one initialization goes through, whether the calls come first or after
    the start-up effect of [App] has run [initSupabase] itself. *)
Theorem C7_loader_initializes_once
  (n : nat) (w : World) (endpoint : nat -> FetchResult) :
  match state w with
  | Ready c =>
      getSupabase w = (Return c, w)
      /\ calls n w = (repeat (Return c) n, w)
  | Uninitialized =>
      getSupabase w = initSupabase w
      /\ fetched (snd (getSupabase w)) = S (fetched w)
      /\ match fst (getSupabase w) with
         | Return c => state (snd (getSupabase w)) = Ready c
         | Throw _ => state (snd (getSupabase w)) = Uninitialized
         end
  end
  /\ initializations (snd (calls n (start SupabaseClient endpoint))) <= 1
  /\ initializations
       (snd (calls n (App.lib (snd (App.setupSupabase createClient
                                      (App.mount (start SupabaseClient endpoint)))))))
     <= 1.
Proof.
  split; [|split].
  - unfold state. destruct (supabaseClient w) as [c|] eqn:Hc.
    + split; [now apply getSupabase_cached | now apply calls_ready].
    + rewrite (getSupabase_uncached createClient w Hc).
      destruct (initSupabase_run createClient w) as [Hfetch Hrun].
      repeat split; auto.
      destruct (fst (initSupabase w)) as [c|e];
        destruct Hrun as (_ & Hcache & _); rewrite Hcache; auto.
      now rewrite Hc.
  - apply (calls_initializations createClient n (start SupabaseClient endpoint)).
  - eapply Nat.le_trans; [apply calls_initializations|].
    apply setupSupabase_loader.
Qed.

(** C8, as the code has it: [initSupabase] throws, and caches no client,
    exactly when the response is not usable: the endpoint cannot be reached
    or answers without success, the body is not a JSON object, one of
    [supabaseUrl] and [supabaseAnonKey] is absent or falsy (the empty string
    is), or [createClient] refuses the pair. In particular, with a body that
    has no [supabaseAnonKey] and no handle cached, [getSupabase] throws and
    [App] shows the connection-error screen. *)
Theorem C8_initialization_fails_iff_unusable (w : World) :
  match fst (initSupabase w) with
  | Return c =>
      configUsable (configEndpoint w (fetched w)) = true
      /\ supabaseClient (snd (initSupabase w)) = Some c
  | Throw _ =>
      configUsable (configEndpoint w (fetched w)) = false
      /\ supabaseClient (snd (initSupabase w)) = supabaseClient w
  end
  /\ (forall (ok : bool) (body : Json),
        configEndpoint w (fetched w) = Response ok (Some body) ->
        hasMember "supabaseAnonKey" body = false ->
        supabaseClient w = None ->
        (exists e, fst (getSupabase w) = Throw e)
        /\ App.render (snd (App.setupSupabase createClient (App.mount w)))
           = App.ConnectionError "Failed to initialize backend services").
Proof.
  destruct (initSupabase_run createClient w) as [_ Hrun].
  split.
  - destruct (fst (initSupabase w)) as [c|e]; tauto.
  - intros ok body Hresp Hmissing Hcache.
    rewrite Hresp, (missing_key_unusable ok body Hmissing) in Hrun.
    rewrite (getSupabase_uncached createClient w Hcache).
    unfold App.setupSupabase, App.mount, tryCatch, bind, lift. simpl.
    destruct (initSupabase w) as [[c|e] w1]; simpl in *.
    + destruct Hrun as [Habsurd _]. discriminate.
    + split; [now exists e | reflexivity].
Qed.

End LoaderClaims.

(** Witnesses and counterexamples of the loader claims. *)

Section LoaderScenarios.

Import Supabase Spec Sample.

(** C8, as stated, fails: the body has both credential fields, the first
    one empty, the endpoint answers with success, and yet [initSupabase]
    throws and caches nothing. *)
Lemma C8_empty_url_is_refused :
  hasMember "supabaseUrl" emptyUrlConfig = true
  /\ hasMember "supabaseAnonKey" emptyUrlConfig = true
  /\ fst (initSupabase acceptAll
            (start Client (always (Response true (Some emptyUrlConfig)))))
     = Throw (credentialsMissing)
  /\ supabaseClient
       (snd (initSupabase acceptAll
               (start Client (always (Response true (Some emptyUrlConfig))))))
     = None.
Proof. repeat split; reflexivity. Qed.

Lemma C8_missing_key_witness :
  configEndpoint (start Client (always (Response true (Some noKeyConfig))))
                 (fetched (start Client (always (Response true (Some noKeyConfig)))))
  = Response true (Some noKeyConfig)
  /\ hasMember "supabaseAnonKey" noKeyConfig = false
  /\ supabaseClient (start Client (always (Response true (Some noKeyConfig)))) = None
  /\ ((exists e,
         fst (getSupabase acceptAll
                (start Client (always (Response true (Some noKeyConfig))))) = Throw e)
      /\ App.render
           (snd (App.setupSupabase acceptAll
                   (App.mount (start Client (always (Response true (Some noKeyConfig)))))))
         = App.ConnectionError "Failed to initialize backend services").
Proof.
  split; [reflexivity|]. split; [reflexivity|]. split; [reflexivity|].
  apply (proj2 (@C8_initialization_fails_iff_unusable Client acceptAll
                  (start Client (always (Response true (Some noKeyConfig)))))
               true noKeyConfig); reflexivity.
Defined.

End LoaderScenarios.

(** The loader over an endpoint that is down once: the first call throws,
    the second initializes, the third is served from the cache, and two
    configuration requests were issued in all. *)
Example loader_recovers :
  fst (Supabase.calls Sample.acceptAll 3 (Supabase.start Sample.Client Sample.recovering))
  = [ Throw (mkError "TypeError" "Failed to fetch");
      Return (Some (JStr (js "https://leads.supabase.co")), Some (JStr (js "anon-key")));
      Return (Some (JStr (js "https://leads.supabase.co")), Some (JStr (js "anon-key"))) ]
  /\ Supabase.fetched
       (snd (Supabase.calls Sample.acceptAll 3
               (Supabase.start Sample.Client Sample.recovering))) = 2.
Proof. split; reflexivity. Qed.

(** ** The lead service *)

Section ServiceFacts.

Import LeadService Spec.

Variable SupabaseClient : Type.
Variable createClient : JsValue -> JsValue -> JsError + SupabaseClient.

Local Abbreviation World := (LeadService.World SupabaseClient).
Local Abbreviation submitLead := (LeadService.submitLead createClient).
Local Abbreviation getSupabase := (Supabase.getSupabase createClient).

Lemma isEmpty_rev (s : jsstring) : isEmpty (rev s) = isEmpty s.
Proof.
  destruct s as [|c s]; simpl; auto.
  now destruct (rev s).
Qed.

Lemma forallb_rev (p : N -> bool) (s : jsstring) :
  forallb p (rev s) = forallb p s.
Proof.
  induction s as [|c s IH]; simpl; auto.
  rewrite forallb_app, IH. simpl.
  rewrite andb_true_r. apply andb_comm.
Qed.

(** Nothing is left of a string once the leading white space is gone
    exactly when it is white space throughout. *)
Lemma isEmpty_trimStart (s : jsstring) :
  isEmpty (trimStart s) = forallb isWhiteSpace s.
Proof.
  induction s as [|c s IH]; simpl; auto.
  destruct (isWhiteSpace c); simpl; auto.
Qed.

Lemma forallb_trimStart (s : jsstring) :
  forallb isWhiteSpace (trimStart s) = forallb isWhiteSpace s.
Proof.
  induction s as [|c s IH]; simpl; auto.
  destruct (isWhiteSpace c) eqn:Hc; simpl; auto.
  now rewrite Hc.
Qed.

(** [s.trim() === ''] says that [s] is white space throughout. *)
Lemma isEmpty_trim (s : jsstring) :
  isEmpty (trim s) = forallb isWhiteSpace s.
Proof.
  unfold trim.
  now rewrite isEmpty_rev, isEmpty_trimStart, forallb_rev, forallb_trimStart.
Qed.

Lemma orNull_spec (v : option jsstring) : orNull v = absentIf isEmpty v.
Proof. reflexivity. Qed.

Lemma emailOrNull_spec (v : option jsstring) :
  emailOrNull v = absentIf (forallb isWhiteSpace) v.
Proof.
  destruct v as [s|]; simpl; auto.
  rewrite isEmpty_trim. destruct s as [|c s]; simpl; auto.
  now destruct (isWhiteSpace c && forallb isWhiteSpace s).
Qed.

(** What [submitLead] hands to [insert]: nothing when no handle can be
    had, and otherwise the one row made of the lead. *)
Lemma submitLead_inserted (w : World) (leadData : NewLead.t) :
  inserted (snd (submitLead leadData w))
  = inserted w ++
    match fst (getSupabase (lib w)) with
    | Throw _ => []
    | Return _ => [toRow leadData (now w)]
    end.
Proof.
  unfold LeadService.submitLead, tryCatch, bind, lift, gets, insertLead,
    consoleError, throw, ret, modify, lift, Supabase.consoleWrite.
  destruct (getSupabase (lib w)) as [[c|e] l1]; simpl.
  - destruct (error (leads w (List.length (inserted w)) (toRow leadData (now w))))
      as [err|]; simpl; auto.
    destruct (data (leads w (List.length (inserted w)) (toRow leadData (now w))))
      as [stored|]; simpl; auto.
  - now rewrite app_nil_r.
Qed.

(** C6, as the code has it: the service hands one row to [insert] (none
    when it cannot get a handle), in which [school_name] is absent when
    [schoolName] is absent or empty, [email] is absent when [email] is
    absent, empty or white space throughout, and every other value,
    [schoolName] and [email] included, is the one of the lead. *)
Theorem C6_row_normalizes_blank_optionals (w : World) (leadData : NewLead.t) :
  inserted (snd (submitLead leadData w))
  = inserted w ++
    match fst (getSupabase (lib w)) with
    | Throw _ => []
    | Return _ =>
        [ {| Row.parent_name := NewLead.parentName leadData;
             Row.child_grade := NewLead.childGrade leadData;
             Row.school_name := absentIf isEmpty (NewLead.schoolName leadData);
             Row.city := NewLead.city leadData;
             Row.mobile_number := NewLead.mobileNumber leadData;
             Row.email := absentIf (forallb isWhiteSpace) (NewLead.email leadData);
             Row.created_at := now w |} ]
    end.
Proof.
  rewrite submitLead_inserted. unfold toRow.
  now rewrite orNull_spec, emailOrNull_spec.
Qed.

End ServiceFacts.

(** C6, as stated, fails: the e-mail of this lead is not the empty string,
    it is one space, and the row handed to [insert] has no e-mail. *)
Lemma C6_blank_email_is_dropped :
  NewLead.email Sample.blankEmail = Some [32%N]
  /\ map Row.email
       (LeadService.inserted
          (snd (LeadService.submitLead Sample.acceptAll Sample.blankEmail
                  (Sample.backend
                     (Sample.always (Supabase.Response true (Some Sample.goodConfig)))))))
     = [None].
Proof. split; reflexivity. Qed.

(* ================================================================== *)
(** * Further properties of the code *)

(** ** The form: what the schema accepts, and what a press of submit does *)

Section FormRules.

Import HomePage Zod Spec Rules.

Variable emailRegex : jsstring -> bool.

Ltac one_field :=
  rewrite hasError_safeParse; unfold formSchema;
  cbn -[mobileRegex nameRegex schoolRegex test Nat.leb]; rewrite ?orb_false_r.

Lemma letters_rule (s : jsstring) :
  Nat.leb 2 (List.length s) && test nameRegex s
  = Nat.leb 2 (List.length s) && forallb isLetterOrWhiteSpace s.
Proof.
  unfold nameRegex. rewrite test_Plus_Class.
  destruct s as [|c s]; reflexivity.
Qed.

Lemma two_checks (a b : bool) (m1 m2 : string) :
  negb (noIssue ((if a then [] else [m1]) ++ (if b then [] else [m2]) ++ []))
  = negb (a && b).
Proof. destruct a, b; reflexivity. Qed.

Lemma one_check (a : bool) (m : string) :
  negb (noIssue ((if a then [] else [m]) ++ [])) = negb a.
Proof. destruct a; reflexivity. Qed.

Lemma parentName_issue (v : FormValues) :
  hasError ParentName (safeParse emailRegex formSchema v)
  = negb (lettersOfLength 2 (parentName v)).
Proof.
  one_field. destruct (parentName v) as [[ | | |s| | ]|]; try reflexivity.
  cbn -[nameRegex schoolRegex test Nat.leb].
  now rewrite two_checks, letters_rule.
Qed.

Lemma city_issue (v : FormValues) :
  hasError City (safeParse emailRegex formSchema v)
  = negb (lettersOfLength 2 (city v)).
Proof.
  one_field. destruct (city v) as [[ | | |s| | ]|]; try reflexivity.
  cbn -[nameRegex schoolRegex test Nat.leb].
  now rewrite two_checks, letters_rule.
Qed.

Lemma schoolName_issue (v : FormValues) :
  hasError SchoolName (safeParse emailRegex formSchema v)
  = negb (absentOr (forallb isLetterOrWhiteSpace) (schoolName v)).
Proof.
  one_field. destruct (schoolName v) as [[ | | |s| | ]|]; try reflexivity.
  cbn -[nameRegex schoolRegex test Nat.leb].
  rewrite one_check. unfold schoolRegex. now rewrite test_Star_Class.
Qed.

Lemma email_issue (v : FormValues) :
  hasError Email (safeParse emailRegex formSchema v)
  = negb (absentOr emailRegex (email v)).
Proof.
  one_field. destruct (email v) as [[ | | |s| | ]|]; try reflexivity.
  cbn -[nameRegex schoolRegex test Nat.leb].
  now rewrite one_check.
Qed.

(** No issue at all is no issue on any key. *)
Lemma no_issue_anywhere (issues : list (Field * string)) :
  issues = [] <-> forall f, hasError f issues = false.
Proof.
  split.
  - now intros ->.
  - intros H. destruct issues as [|i rest]; auto.
    specialize (H (fst i)). simpl in H.
    now rewrite Field_eqb_refl in H.
Qed.

(** The resolver reports no error exactly on the payloads that keep all
    six rules. *)
Lemma zodResolver_accepts (v : FormValues) :
  zodResolver emailRegex v = [] <-> accepts emailRegex v = true.
Proof.
  rewrite no_issue_anywhere. unfold accepts. split.
  - intros H.
    pose proof (H ParentName) as H1. pose proof (H ChildGrade) as H2.
    pose proof (H SchoolName) as H3. pose proof (H City) as H4.
    pose proof (H MobileNumber) as H5. pose proof (H Email) as H6.
    rewrite hasError_zodResolver in H1, H2, H3, H4, H5, H6.
    rewrite parentName_issue in H1. rewrite childGrade_issue in H2.
    rewrite schoolName_issue in H3. rewrite city_issue in H4.
    rewrite mobileNumber_issue in H5. rewrite email_issue in H6.
    apply negb_false_iff in H1, H2, H3, H4, H5, H6.
    now rewrite H1, H2, H3, H4, H5, H6.
  - intros H f. rewrite !andb_true_iff in H.
    destruct H as (((((H1 & H2) & H3) & H4) & H5) & H6).
    rewrite hasError_zodResolver.
    destruct f;
      [ rewrite parentName_issue, H1 | rewrite childGrade_issue, H2
      | rewrite schoolName_issue, H3 | rewrite city_issue, H4
      | rewrite mobileNumber_issue, H5 | rewrite email_issue, H6 ];
      reflexivity.
Qed.

(** X1: a press of submit posts the form values, once, exactly when they
    keep the six rules of the schema: names and city of two or more letters
    and white space, a grade that is not empty, a school that is absent or
    letters and white space, a mobile number of ten digits, an e-mail that
    is absent or matches; otherwise it posts nothing and records errors. *)
Theorem X1_posted_iff_rules_kept (w : World) :
  requests (snd (submit emailRegex w))
  = requests w ++ (if accepts emailRegex (formValues w)
                   then [post (formValues w)] else [])
  /\ match formErrors (snd (submit emailRegex w)) with
     | [] => true
     | _ :: _ => false
     end = accepts emailRegex (formValues w).
Proof.
  destruct (accepts emailRegex (formValues w)) eqn:Hacc.
  - apply zodResolver_accepts in Hacc.
    rewrite (@submit_valid emailRegex w Hacc), onSubmit_run. simpl.
    destruct (apiResolves w (List.length (requests w))); simpl; auto.
  - assert (Hno : zodResolver emailRegex (formValues w) <> []).
    { intros Hz. apply zodResolver_accepts in Hz. congruence. }
    rewrite (@submit_invalid emailRegex w Hno). simpl.
    rewrite app_nil_r. split; auto.
    destruct (zodResolver emailRegex (formValues w)); congruence.
Qed.

(** X2: a press of submit never throws, whatever the network does; it
    leaves [isSubmitting] off when it ran the request and as it was when the
    values were turned down; accepted values leave no error on the form, and
    values turned down show no toast. *)
Theorem X2_submit_returns_and_reenables (w : World) :
  fst (submit emailRegex w) = Return tt
  /\ isSubmitting (snd (submit emailRegex w))
     = (if accepts emailRegex (formValues w) then false else isSubmitting w)
  /\ (if accepts emailRegex (formValues w)
      then formErrors (snd (submit emailRegex w)) = []
      else toasts (snd (submit emailRegex w)) = toasts w).
Proof.
  destruct (accepts emailRegex (formValues w)) eqn:Hacc.
  - apply zodResolver_accepts in Hacc.
    rewrite (@submit_valid emailRegex w Hacc), onSubmit_run. simpl.
    destruct (apiResolves w (List.length (requests w))); simpl; auto.
  - assert (Hno : zodResolver emailRegex (formValues w) <> []).
    { intros Hz. apply zodResolver_accepts in Hz. congruence. }
    rewrite (@submit_invalid emailRegex w Hno). simpl. auto.
Qed.

(** X3: after a request that failed the form is still filled and valid, so
    a second press posts the same payload again: two requests in all, and
    the toast of the second press follows the second answer. *)
Theorem X3_retry_posts_again (w : World) :
  accepts emailRegex (formValues w) = true ->
  apiResolves w (List.length (requests w)) = false ->
  requests (snd (submit emailRegex (snd (submit emailRegex w))))
  = requests w ++ [post (formValues w); post (formValues w)]
  /\ toasts (snd (submit emailRegex (snd (submit emailRegex w))))
     = toasts w ++ [errorToast;
                    if apiResolves w (S (List.length (requests w)))
                    then successToast else errorToast].
Proof.
  intros Hacc Hfail. apply zodResolver_accepts in Hacc.
  rewrite (@submit_valid emailRegex w Hacc), onSubmit_run. simpl.
  rewrite Hfail. simpl.
  rewrite submit_valid by (simpl; exact Hacc).
  rewrite onSubmit_run. simpl.
  rewrite length_app, Nat.add_comm. simpl.
  destruct (apiResolves w (S (List.length (requests w)))); simpl;
    rewrite <- !app_assoc; auto.
Qed.

End FormRules.

(** ** The key filters against the schema *)

Section KeyFilters.

Import HomePage Zod Spec Rules KeyPress.

Variable emailRegex : jsstring -> bool.

Lemma charCode_same (c : N) : charCode c c = c.
Proof. unfold charCode. now destruct (c =? 0)%N. Qed.

(** A key the letters filter lets through is in the class of the pattern. *)
Lemma letters_key_in_class (c : N) :
  lettersPrevented c c = false -> isLetterOrWhiteSpace c = true.
Proof.
  unfold lettersPrevented. rewrite charCode_same.
  unfold isLetterOrWhiteSpace, isAsciiLetter, isWhiteSpace, inRange.
  destruct ((65 <=? c)%N && (c <=? 90)%N); simpl;
    [ intros _; now rewrite orb_true_r |].
  destruct ((97 <=? c)%N && (c <=? 122)%N); simpl; [ reflexivity |].
  destruct (c =? 32)%N; simpl; [| discriminate ].
  intros _. now rewrite orb_true_r.
Qed.

(** A printable key the digits filter lets through is a digit. *)
Lemma digits_key_is_digit (c : N) :
  negb (digitsPrevented c c) && (31 <? c)%N = true -> isDigit c = true.
Proof.
  unfold digitsPrevented. rewrite charCode_same.
  unfold isDigit, inRange. rewrite !N.ltb_antisym.
  destruct (c <=? 31)%N, (48 <=? c)%N, (c <=? 57)%N; simpl; congruence.
Qed.

Lemma lettersTyped_class (s : jsstring) :
  lettersTyped s = true -> forallb isLetterOrWhiteSpace s = true.
Proof.
  unfold lettersTyped. rewrite !forallb_forall.
  intros H c Hc. apply letters_key_in_class.
  now apply negb_true_iff, H.
Qed.

Lemma digitsTyped_digits (s : jsstring) :
  digitsTyped s = true ->
  forallb isDigit s = true /\ Nat.leb (List.length s) 10 = true.
Proof.
  unfold digitsTyped, mobileMaxLength. rewrite andb_true_iff.
  intros [H Hlen]. split; auto.
  rewrite forallb_forall in *. intros c Hc.
  now apply digits_key_is_digit, H.
Qed.

(** X4: text that came in through the letters filter of the name, city and
    school inputs never raises "Only alphabets allowed": a name or a city so
    typed has an error exactly when it is shorter than two characters, and a
    school so typed has none. *)
Theorem X4_typed_letters_pass_pattern (f : Field) (v : FormValues) (s : jsstring) :
  In f [ParentName; City; SchoolName] ->
  field f v = Some (JStr s) ->
  lettersTyped s = true ->
  hasError f (zodResolver emailRegex v)
  = match f with
    | SchoolName => false
    | _ => negb (Nat.leb 2 (List.length s))
    end.
Proof.
  intros Hf Hv Htyped. apply lettersTyped_class in Htyped.
  rewrite hasError_zodResolver.
  assert (Hcases : f = ParentName \/ f = City \/ f = SchoolName)
    by (simpl in Hf; intuition).
  destruct Hcases as [-> | [-> | ->]]; simpl in Hv.
  - rewrite parentName_issue, Hv. simpl. now rewrite Htyped, andb_true_r.
  - rewrite city_issue, Hv. simpl. now rewrite Htyped, andb_true_r.
  - rewrite schoolName_issue, Hv. simpl. now rewrite Htyped.
Qed.

(** X5: a mobile number made of printable keys the digits filter let
    through, within [maxLength], has an error exactly when it has fewer than
    ten characters. *)
Theorem X5_typed_mobile_needs_ten (v : FormValues) (s : jsstring) :
  mobileNumber v = Some (JStr s) ->
  digitsTyped s = true ->
  hasError MobileNumber (zodResolver emailRegex v)
  = Nat.ltb (List.length s) 10.
Proof.
  intros Hv Htyped. apply digitsTyped_digits in Htyped.
  destruct Htyped as [Hdigits Hlen].
  rewrite hasError_zodResolver, mobileNumber_issue, Hv. simpl tenDigits.
  rewrite Hdigits, andb_true_r.
  apply Nat.leb_le in Hlen.
  destruct (Nat.eqb_spec (List.length s) 10) as [Heq|Hne]; simpl; symmetry.
  - apply Nat.ltb_ge. lia.
  - apply Nat.ltb_lt. lia.
Qed.

End KeyFilters.

Section FormRuleScenarios.

Import HomePage Spec Rules Sample KeyPress.

Lemma X3_retry_witness :
  accepts hasAtSign (formValues (filled anjaliNoEmail offline)) = true
  /\ apiResolves (filled anjaliNoEmail offline)
       (List.length (requests (filled anjaliNoEmail offline))) = false
  /\ (requests (snd (submit hasAtSign (snd (submit hasAtSign (filled anjaliNoEmail offline)))))
      = requests (filled anjaliNoEmail offline) ++ [post anjaliNoEmail; post anjaliNoEmail]
      /\ toasts (snd (submit hasAtSign (snd (submit hasAtSign (filled anjaliNoEmail offline)))))
         = toasts (filled anjaliNoEmail offline) ++ [errorToast; errorToast]).
Proof.
  split; [reflexivity|]. split; [reflexivity|].
  apply (@X3_retry_posts_again hasAtSign (filled anjaliNoEmail offline));
    reflexivity.
Defined.

Lemma X4_typed_name_witness :
  In ParentName [ParentName; City; SchoolName]
  /\ field ParentName anjaliNoEmail = Some (JStr (js "Anjali Patel"))
  /\ lettersTyped (js "Anjali Patel") = true
  /\ hasError ParentName (zodResolver hasAtSign anjaliNoEmail)
     = negb (Nat.leb 2 (List.length (js "Anjali Patel"))).
Proof.
  split; [simpl; auto|]. split; [reflexivity|]. split; [reflexivity|].
  apply (@X4_typed_letters_pass_pattern hasAtSign ParentName anjaliNoEmail
           (js "Anjali Patel")).
  - simpl; auto.
  - reflexivity.
  - reflexivity.
Defined.

Lemma X5_typed_mobile_witness :
  mobileNumber shortMobile = Some (JStr (js "98765"))
  /\ digitsTyped (js "98765") = true
  /\ hasError MobileNumber (zodResolver hasAtSign shortMobile)
     = Nat.ltb (List.length (js "98765")) 10.
Proof.
  split; [reflexivity|]. split; [reflexivity|].
  apply (@X5_typed_mobile_needs_ten hasAtSign shortMobile (js "98765"));
    reflexivity.
Defined.

End FormRuleScenarios.

(** ** The loader and the start-up of the application *)

Section LoaderExtras.

Import Supabase Rules.

Variable SupabaseClient : Type.
Variable createClient : JsValue -> JsValue -> JsError + SupabaseClient.

Local Abbreviation World := (Supabase.World SupabaseClient).
Local Abbreviation initSupabase := (Supabase.initSupabase createClient).
Local Abbreviation getSupabase := (Supabase.getSupabase createClient).
Local Abbreviation calls := (Supabase.calls createClient).
Local Abbreviation configUsable := (Supabase.configUsable createClient).
Local Abbreviation consistent := (Rules.consistent createClient).

(** X6: [App] shows the spinner until the start-up effect has run; the
    effect never throws; afterwards the pages are shown exactly when the
    configuration was usable, and the connection-error screen otherwise:
    never the spinner again. *)
Theorem X6_startup_screen (l : World) :
  App.render (App.mount l) = App.Loading
  /\ fst (App.setupSupabase createClient (App.mount l)) = Return tt
  /\ App.render (snd (App.setupSupabase createClient (App.mount l)))
     = if configUsable (configEndpoint l (fetched l))
       then App.Routes
       else App.ConnectionError "Failed to initialize backend services".
Proof.
  destruct (initSupabase_run createClient l) as [_ Hrun].
  unfold App.setupSupabase, App.mount, tryCatch, bind, lift,
    App.setSupabaseInitialized, App.setInitError, modify, App.render. simpl.
  destruct (initSupabase l) as [[c|e] l1]; simpl in *;
    destruct Hrun as (Husable & _); rewrite Husable; auto.
Qed.

(** An initialization that starts without a handle leaves the module
    consistent: a handle it caches was made from the credentials it stored. *)
Lemma initSupabase_consistent (w : World) :
  supabaseClient w = None -> consistent (snd (initSupabase w)).
Proof.
  intros Hnone.
  unfold Rules.consistent, Supabase.initSupabase, tryCatch, bind, fetchConfig,
    throwIf, json, member, setCredentials, setClient, consoleWrite, modify,
    throw, ret.
  cbn -[js].
  destruct (configEndpoint w (fetched w)) as [|[|] [[ |b|n|s|items|members]|]];
    cbn -[js]; try (rewrite Hnone; exact I).
  destruct (truthy (getMember (js "supabaseUrl") members)) eqn:Hurl; cbn -[js];
    try (rewrite Hnone; exact I).
  destruct (truthy (getMember (js "supabaseAnonKey") members)) eqn:Hkey; cbn -[js];
    try (rewrite Hnone; exact I).
  destruct (createClient _ _) as [refused|client] eqn:Hmade; cbn -[js].
  - rewrite Hnone. exact I.
  - auto.
Qed.

Lemma getSupabase_consistent (w : World) :
  consistent w -> consistent (snd (getSupabase w)).
Proof.
  intros H. destruct (supabaseClient w) as [c|] eqn:Hc.
  - now rewrite (getSupabase_cached createClient w Hc).
  - rewrite (getSupabase_uncached createClient w Hc).
    now apply initSupabase_consistent.
Qed.

Lemma calls_consistent (n : nat) (w : World) :
  consistent w -> consistent (snd (calls n w)).
Proof.
  revert w; induction n as [|n IH]; intros w H; simpl; auto.
  pose proof (getSupabase_consistent w H) as H1.
  destruct (getSupabase w) as [r w1]. simpl in H1.
  specialize (IH w1 H1). now destruct (calls n w1).
Qed.

(** X7: however many times [getSupabase] is called, and whatever the
    endpoint answers, a handle in the cache is the one [createClient] made
    from the two credentials the module holds, and both are truthy. *)
Theorem X7_cached_handle_matches_credentials
  (n : nat) (endpoint : nat -> FetchResult) :
  consistent (snd (calls n (start SupabaseClient endpoint))).
Proof. apply calls_consistent. exact I. Qed.

End LoaderExtras.

(** ** The lead service: answers, errors, and repeated submissions *)

Section ServiceExtras.

Import LeadService Spec Rules.

Variable SupabaseClient : Type.
Variable createClient : JsValue -> JsValue -> JsError + SupabaseClient.

Local Abbreviation World := (LeadService.World SupabaseClient).
Local Abbreviation submitLead := (LeadService.submitLead createClient).
Local Abbreviation getSupabase := (Supabase.getSupabase createClient).

Ltac run_service :=
  unfold LeadService.submitLead, tryCatch, bind, lift, gets, insertLead,
    consoleError, throw, ret, modify, lift, Supabase.consoleWrite.

(** The completion of [submitLead], case by case. *)
Lemma submitLead_completion (w : World) (leadData : NewLead.t) :
  fst (submitLead leadData w)
  = match fst (getSupabase (lib w)) with
    | Throw e => Throw e
    | Return _ =>
        let answer := leads w (List.length (inserted w)) (toRow leadData (now w)) in
        match error answer, data answer with
        | Some err, _ =>
            Throw (mkError "Error"
                     (String.append "Supabase error: "
                        (String.append (message err)
                           (String.append ". " (hintOrEmpty (hint err))))))
        | None, None =>
            Throw (mkError "Error" "Failed to create lead: No data returned")
        | None, Some stored => Return (toLead stored)
        end
    end.
Proof.
  run_service.
  destruct (getSupabase (lib w)) as [[c|e] l1]; simpl; auto.
  destruct (error (leads w (List.length (inserted w)) (toRow leadData (now w))))
    as [err|]; simpl; auto.
  destruct (data (leads w (List.length (inserted w)) (toRow leadData (now w))))
    as [stored|]; simpl; auto.
Qed.

(** X8: how [submitLead] ends. Without a handle it throws the loader's own
    error; with one, an [error] in the answer of the table makes it throw
    "Supabase error: message. hint" whether or not a row came back, an
    answer with neither error nor row makes it throw "Failed to create
    lead: No data returned", and only a row without error is returned,
    under the client's names. *)
Theorem X8_submitLead_outcome (w : World) (leadData : NewLead.t) :
  fst (submitLead leadData w)
  = match fst (getSupabase (lib w)) with
    | Throw e => Throw e
    | Return _ =>
        let answer := leads w (List.length (inserted w)) (toRow leadData (now w)) in
        match error answer, data answer with
        | Some err, _ =>
            Throw (mkError "Error"
                     (String.append "Supabase error: "
                        (String.append (message err)
                           (String.append ". " (hintOrEmpty (hint err))))))
        | None, None =>
            Throw (mkError "Error" "Failed to create lead: No data returned")
        | None, Some stored => Return (toLead stored)
        end
    end.
Proof. apply submitLead_completion. Qed.

(** X9: every failure of [submitLead] is logged: when it throws, the last
    line on the console is "Error submitting lead:"; when it returns it has
    written nothing beyond what the loader wrote. *)
Theorem X9_failures_are_logged (w : World) (leadData : NewLead.t) :
  match fst (submitLead leadData w) with
  | Throw _ =>
      last (Supabase.console (lib (snd (submitLead leadData w)))) ""
      = "Error submitting lead:"
  | Return _ =>
      Supabase.console (lib (snd (submitLead leadData w)))
      = Supabase.console (snd (getSupabase (lib w)))
  end.
Proof.
  run_service.
  destruct (getSupabase (lib w)) as [[c|e] l1]; simpl.
  - destruct (error (leads w (List.length (inserted w)) (toRow leadData (now w))))
      as [err|]; simpl.
    + apply last_last.
    + destruct (data (leads w (List.length (inserted w)) (toRow leadData (now w))))
        as [stored|]; simpl; auto.
      now rewrite last_last.
  - now rewrite last_last.
Qed.


Lemma orNull_orNull (v : option jsstring) : orNull (orNull v) = orNull v.
Proof.
  destruct v as [s|]; simpl; auto.
  destruct s; reflexivity.
Qed.

Lemma orNull_emailOrNull (v : option jsstring) : orNull (emailOrNull v) = emailOrNull v.
Proof.
  destruct v as [s|]; simpl; auto.
  destruct s as [|c s]; simpl; auto.
  destruct (isEmpty (trim (c :: s))); reflexivity.
Qed.

(** X10: the round trip through the table. When a handle is to be had and
    the table answers with the row it was given, [submitLead] returns the
    lead that was submitted, with the [id] of the table, the time of the
    call as [createdAt], a [schoolName] that is absent if it was absent or
    empty and an [email] that is absent if it was absent or blank. *)
Theorem X10_round_trip
  (w : World) (leadData : NewLead.t) (handle : SupabaseClient) (id : jsstring) :
  fst (getSupabase (lib w)) = Return handle ->
  leads w (List.length (inserted w)) (toRow leadData (now w))
  = {| data := Some (echo id (toRow leadData (now w))); error := None |} ->
  fst (submitLead leadData w)
  = Return {| Lead.id := Some id;
              Lead.parentName := NewLead.parentName leadData;
              Lead.childGrade := NewLead.childGrade leadData;
              Lead.schoolName := absentIf isEmpty (NewLead.schoolName leadData);
              Lead.city := NewLead.city leadData;
              Lead.mobileNumber := NewLead.mobileNumber leadData;
              Lead.email := absentIf (forallb isWhiteSpace) (NewLead.email leadData);
              Lead.createdAt := Some (now w) |}.
Proof.
  intros Hhandle Hanswer.
  run_service.
  destruct (getSupabase (lib w)) as [[c|e] l1]; simpl in *; [|discriminate].
  rewrite Hanswer. simpl. unfold toLead, echo, toRow. simpl.
  rewrite orNull_orNull, orNull_emailOrNull.
  now rewrite (orNull_spec (NewLead.schoolName leadData)), emailOrNull_spec.
Qed.


End ServiceExtras.

Section ServiceRepeats.

Import LeadService Spec Rules.

Variable SupabaseClient : Type.
Variable createClient : JsValue -> JsValue -> JsError + SupabaseClient.

Local Abbreviation World := (LeadService.World SupabaseClient).
Local Abbreviation submitLead := (LeadService.submitLead createClient).
Local Abbreviation getSupabase := (Supabase.getSupabase createClient).

(** A handle that [getSupabase] returns is in the cache afterwards. *)
Lemma getSupabase_caches (l : Supabase.World SupabaseClient) (handle : SupabaseClient) :
  fst (getSupabase l) = Return handle ->
  Supabase.supabaseClient (snd (getSupabase l)) = Some handle.
Proof.
  destruct (Supabase.supabaseClient l) as [c|] eqn:Hc.
  - rewrite (getSupabase_cached createClient l Hc). simpl. congruence.
  - rewrite (getSupabase_uncached createClient l Hc).
    destruct (initSupabase_run createClient l) as [_ Hrun].
    intros H. rewrite H in Hrun. tauto.
Qed.

(** What a submission that got a handle leaves behind: the loader as
    [getSupabase] left it, but for the console, and one more row. *)
Lemma submitLead_leaves (w : World) (leadData : NewLead.t) (handle : SupabaseClient) :
  fst (getSupabase (lib w)) = Return handle ->
  Supabase.supabaseClient (lib (snd (submitLead leadData w))) = Some handle
  /\ Supabase.fetched (lib (snd (submitLead leadData w)))
     = Supabase.fetched (snd (getSupabase (lib w)))
  /\ now (snd (submitLead leadData w)) = now w
  /\ inserted (snd (submitLead leadData w))
     = inserted w ++ [toRow leadData (now w)].
Proof.
  intros H. pose proof (getSupabase_caches (lib w) H) as Hcache.
  unfold LeadService.submitLead, tryCatch, bind, lift, gets, insertLead,
    consoleError, throw, ret, modify, lift, Supabase.consoleWrite.
  destruct (getSupabase (lib w)) as [[c|e] l1]; simpl in *; [|discriminate].
  destruct (error (leads w (List.length (inserted w)) (toRow leadData (now w))))
    as [err|]; simpl; auto.
  destruct (data (leads w (List.length (inserted w)) (toRow leadData (now w))))
    as [stored|]; simpl; auto.
Qed.

(** X12: two submissions in a row, the first of which gets a handle: the
    second one is served from the cache and asks for no configuration, and
    each hands its own row to [insert], in order, whether or not the two
    leads are the same: nothing is deduplicated. *)
Theorem X12_second_submission_reuses_handle
  (w : World) (first second : NewLead.t) (handle : SupabaseClient) :
  fst (getSupabase (lib w)) = Return handle ->
  Supabase.fetched (lib (snd (submitLead second (snd (submitLead first w)))))
  = Supabase.fetched (lib (snd (submitLead first w)))
  /\ inserted (snd (submitLead second (snd (submitLead first w))))
     = inserted w ++ [toRow first (now w);
                      toRow second (now (snd (submitLead first w)))].
Proof.
  intros H.
  destruct (submitLead_leaves w first H) as (Hcache & _ & Hnow & Hrows).
  assert (Hagain : getSupabase (lib (snd (submitLead first w)))
                   = (Return handle, lib (snd (submitLead first w))))
    by (now apply getSupabase_cached).
  assert (H2 : fst (getSupabase (lib (snd (submitLead first w)))) = Return handle)
    by (now rewrite Hagain).
  destruct (submitLead_leaves (snd (submitLead first w)) second H2)
    as (_ & Hfetched & _ & Hrows2).
  rewrite Hagain in Hfetched. simpl in Hfetched.
  split; [exact Hfetched|].
  rewrite Hrows2, Hrows, <- app_assoc. reflexivity.
Qed.

End ServiceRepeats.

Section ServiceScenarios.

Import LeadService Spec Rules Sample Sample2.

Lemma X10_round_trip_witness :
  fst (Supabase.getSupabase acceptAll (lib shop))
  = Return (Some (JStr (js "https://leads.supabase.co")), Some (JStr (js "anon-key")))
  /\ leads shop (List.length (inserted shop)) (toRow blankEmail (now shop))
     = {| data := Some (echo (js "lead-1") (toRow blankEmail (now shop)));
          error := None |}
  /\ fst (LeadService.submitLead acceptAll blankEmail shop)
     = Return {| Lead.id := Some (js "lead-1");
                 Lead.parentName := NewLead.parentName blankEmail;
                 Lead.childGrade := NewLead.childGrade blankEmail;
                 Lead.schoolName := absentIf isEmpty (NewLead.schoolName blankEmail);
                 Lead.city := NewLead.city blankEmail;
                 Lead.mobileNumber := NewLead.mobileNumber blankEmail;
                 Lead.email := absentIf (forallb isWhiteSpace) (NewLead.email blankEmail);
                 Lead.createdAt := Some (now shop) |}.
Proof.
  split; [reflexivity|]. split; [reflexivity|].
  apply (@X10_round_trip Client acceptAll shop blankEmail
           (Some (JStr (js "https://leads.supabase.co")), Some (JStr (js "anon-key")))
           (js "lead-1")); reflexivity.
Defined.


Lemma X12_two_submissions_witness :
  fst (Supabase.getSupabase acceptAll (lib shop))
  = Return (Some (JStr (js "https://leads.supabase.co")), Some (JStr (js "anon-key")))
  /\ (Supabase.fetched
        (lib (snd (LeadService.submitLead acceptAll blankEmail
                     (snd (LeadService.submitLead acceptAll blankEmail shop)))))
      = Supabase.fetched (lib (snd (LeadService.submitLead acceptAll blankEmail shop)))
      /\ inserted (snd (LeadService.submitLead acceptAll blankEmail
                          (snd (LeadService.submitLead acceptAll blankEmail shop))))
         = inserted shop
           ++ [toRow blankEmail (now shop);
               toRow blankEmail
                 (now (snd (LeadService.submitLead acceptAll blankEmail shop)))]).
Proof.
  split; [reflexivity|].
  apply (@X12_second_submission_reuses_handle Client acceptAll shop blankEmail blankEmail
           (Some (JStr (js "https://leads.supabase.co")), Some (JStr (js "anon-key")))).
  reflexivity.
Defined.

End ServiceScenarios.

(** ** The first revision of the form *)

Section FirstForm.

Import FirstPage Zod Rules.

Variable emailRegex : jsstring -> bool.

Lemma parse_min (n : nat) (m : string) (v : JsValue) :
  parse emailRegex (ZString [Min n m]) v = [] <-> stringOfLength n v = true.
Proof.
  destruct v as [[ | | |s| | ]|]; simpl; try (split; discriminate).
  destruct (Nat.leb n (List.length s)); simpl; split; congruence.
Qed.

Lemma parse_email (m : string) (v : JsValue) :
  parse emailRegex (ZString [IsEmail m]) v = [] <-> stringThat emailRegex v = true.
Proof.
  destruct v as [[ | | |s| | ]|]; simpl; try (split; discriminate).
  destruct (emailRegex s); simpl; split; congruence.
Qed.

Lemma parse_optional_string (v : JsValue) :
  parse emailRegex (ZOptional (ZString [])) v = []
  <-> absentOr (fun _ => true) v = true.
Proof.
  destruct v as [[ | | |s| | ]|]; simpl; split; congruence.
Qed.

Lemma parseConsent_ticked (v : JsValue) :
  parseConsent v = []
  <-> match v with Some (JBool true) => true | _ => false end = true.
Proof.
  destruct v as [[ |[|]| | | | ]|]; simpl; split; congruence.
Qed.

Lemma tagged_nil (f : Field) (issues : list string) (rest : list (Field * string)) :
  map (pair f) issues ++ rest = [] <-> issues = [] /\ rest = [].
Proof.
  split.
  - intros H. apply app_eq_nil in H. destruct H as [H1 H2].
    split; auto. now destruct issues.
  - now intros [-> ->].
Qed.

(** The resolver of the first form reports nothing exactly when its six
    rules are kept. *)
Lemma first_resolver_accepts (v : FormValues) :
  zodResolver emailRegex v = [] <-> acceptsFirst emailRegex v = true.
Proof.
  unfold zodResolver, acceptsFirst.
  rewrite !tagged_nil, !andb_true_iff.
  unfold nameSchema, emailSchema, phoneSchema, schoolSchema, messageSchema.
  rewrite !parse_min, parse_email, parse_optional_string.
  assert (Hc : map (pair Consent) (parseConsent (consent v)) = []
               <-> match consent v with Some (JBool true) => true | _ => false end = true).
  { rewrite <- parseConsent_ticked. split.
    - intros H. now destruct (parseConsent (consent v)).
    - now intros ->. }
  rewrite Hc. tauto.
Qed.

(** X13: on the first revision of the page a press of submit never throws
    and posts, once, the values without the [consent] key, exactly when the
    name and the school have two characters or more, the e-mail matches, the
    phone has ten characters or more (of any kind), the message is absent
    or a string, and the consent box is ticked; with the box not ticked
    nothing is ever posted. *)
Theorem X13_first_form_posts_iff_rules_kept (w : World) :
  fst (submit emailRegex w) = Return tt
  /\ requests (snd (submit emailRegex w))
     = requests w
       ++ (if acceptsFirst emailRegex (formValues w)
           then [ {| method := "POST"; url := "/api/leads";
                     body := withoutConsent (formValues w) |} ]
           else []).
Proof.
  unfold submit, handleSubmit, bind, gets, setFormErrors, modify. simpl.
  destruct (acceptsFirst emailRegex (formValues w)) eqn:Hacc.
  - apply first_resolver_accepts in Hacc. rewrite Hacc.
    unfold onSubmit, tryFinally, tryCatch, bind, setIsSubmitting, apiRequest,
      toast, form_reset, modify. simpl.
    destruct (apiResolves w (List.length (requests w))); simpl; auto.
  - destruct (zodResolver emailRegex (formValues w)) as [|i rest] eqn:Hz.
    + apply first_resolver_accepts in Hz. congruence.
    + simpl. now rewrite app_nil_r.
Qed.

End FirstForm.

(** The first form on a ticked and on an unticked consent box. *)
Example first_form_consent :
  map FirstPage.body
      (FirstPage.requests
         (snd (FirstPage.submit Sample.hasAtSign
                 (Sample2.firstFilled Sample2.firstLead Sample.online))))
  = [FirstPage.withoutConsent Sample2.firstLead]
  /\ FirstPage.requests
       (snd (FirstPage.submit Sample.hasAtSign
               (Sample2.firstFilled FirstPage.defaultValues Sample.online)))
     = [].
Proof. split; reflexivity. Qed.

(** ** One handle for every caller; the untouched e-mail field *)

Section OneHandle.

Import Supabase.

Variable SupabaseClient : Type.
Variable createClient : JsValue -> JsValue -> JsError + SupabaseClient.

Local Abbreviation World := (Supabase.World SupabaseClient).
Local Abbreviation getSupabase := (Supabase.getSupabase createClient).
Local Abbreviation calls := (Supabase.calls createClient).

(** The handles of a run are all the one the run ends with. *)
Lemma calls_handles (n : nat) (w : World) (c : SupabaseClient) :
  In (Return c) (fst (calls n w)) ->
  supabaseClient (snd (calls n w)) = Some c.
Proof.
  revert w; induction n as [|n IH]; intros w; simpl; [tauto|].
  destruct (supabaseClient w) as [c0|] eqn:Hc.
  - rewrite (getSupabase_cached createClient w Hc).
    rewrite (calls_ready createClient n w Hc). simpl.
    intros [H|H].
    + congruence.
    + apply repeat_spec in H. congruence.
  - pose proof (@getSupabase_caches SupabaseClient createClient w) as Hcaches.
    destruct (getSupabase w) as [r w1] eqn:Hg. simpl in Hcaches.
    specialize (IH w1).
    destruct (calls n w1) as [rs w2] eqn:Hcalls. simpl in *.
    intros [H|H]; [|now apply IH].
    subst r. specialize (Hcaches c eq_refl).
    rewrite (calls_ready createClient n w1 Hcaches) in Hcalls.
    now inversion Hcalls; subst.
Qed.

(** X14: over a run of calls of [getSupabase], each awaited before the
    next, from any state of the loader, all the calls that return a handle
    return the same one. *)
Theorem X14_every_caller_same_handle
  (n : nat) (w : World) (c1 c2 : SupabaseClient) :
  In (Return c1) (fst (calls n w)) ->
  In (Return c2) (fst (calls n w)) ->
  c1 = c2.
Proof.
  intros H1 H2.
  apply calls_handles in H1. apply calls_handles in H2. congruence.
Qed.

End OneHandle.

Section UntouchedEmail.

Import HomePage Spec.

Variable emailRegex : jsstring -> bool.

(** X15: as long as the e-mail field holds the empty string, its default,
    no press of submit posts anything, whatever the other fields hold: the
    press records an error on [email] (for every e-mail pattern that does
    not match the empty string). *)
Theorem X15_untouched_email_blocks_every_submission (w : World) :
  emailRegex [] = false ->
  email (formValues w) = str "" ->
  hasError Email (formErrors (snd (submit emailRegex w))) = true
  /\ requests (snd (submit emailRegex w)) = requests w
  /\ toasts (snd (submit emailRegex w)) = toasts w.
Proof.
  intros Hempty Hemail.
  destruct (@submit_blocked emailRegex Email w) as (_ & He & Hq & Ht & _); auto.
  rewrite email_issue, Hemail. simpl. now rewrite Hempty.
Qed.

End UntouchedEmail.

Section LastScenarios.

Import Supabase HomePage Spec Sample.

Lemma X14_recovering_witness :
  In (Return (Some (JStr (js "https://leads.supabase.co")), Some (JStr (js "anon-key"))))
     (fst (calls acceptAll 3 (start Client recovering)))
  /\ (Some (JStr (js "https://leads.supabase.co")), Some (JStr (js "anon-key")))
     = (Some (JStr (js "https://leads.supabase.co")), Some (JStr (js "anon-key"))).
Proof.
  split; [simpl; auto|].
  apply (@X14_every_caller_same_handle Client acceptAll 3 (start Client recovering));
    simpl; auto.
Defined.

Lemma X15_untouched_email_witness :
  hasAtSign [] = false
  /\ email (formValues (filled anjali online)) = str ""
  /\ (hasError Email (formErrors (snd (submit hasAtSign (filled anjali online)))) = true
      /\ requests (snd (submit hasAtSign (filled anjali online)))
         = requests (filled anjali online)
      /\ toasts (snd (submit hasAtSign (filled anjali online)))
         = toasts (filled anjali online)).
Proof.
  split; [reflexivity|]. split; [reflexivity|].
  apply (@X15_untouched_email_blocks_every_submission hasAtSign (filled anjali online));
    reflexivity.
Defined.

End LastScenarios.
